(** * AutoHeal-Nexus: the predictive repair agent

    A shallow embedding of [scripts/predictive_repair_agent.py] and the
    properties of its decision engine: feature extraction, state
    discretisation, the reward model, the tabular Q-learning policy, the
    bounded metrics window, label construction and model training, and
    persistence of models and history.

    Numbers.  Python [float] values are idealised as exact rationals [Q]
    (no rounding, no inf/nan); Python [int] values are [Z].  Equalities
    between computed floats are therefore stated with [==] on [Q].

    Effects.  Methods that mutate [self] inside a [try] block are written
    in a small state monad whose state survives a raised exception, as a
    Python object's fields do.  scikit-learn and the file system are
    outside the repository and enter as an interface ([Sklearn]) and as an
    explicit [disk] value. *)

From Stdlib Require Import QArith Qabs Qminmax Qpower Lqa Ascii.
From stdpp Require Import gmap strings list fin_maps pretty.

Close Scope Q_scope.


(** ** Float comparisons *)

Module PyFloat.

(** [x < y] on floats. *)
Definition ltb (x y : Q) : bool :=
  match (x ?= y)%Q with Lt => true | _ => false end.

(** [x > y] on floats. *)
Definition gtb (x y : Q) : bool := ltb y x.

End PyFloat.

(** ** Python slices [l[lo:hi]] (step 1) *)

Module PySlice.

(** A slice bound is clamped into [0 .. n]; a negative bound counts from
    the end. *)
Definition bound (n : nat) (i : Z) : nat :=
  if (i <? 0)%Z then Z.to_nat (Z.max 0 (Z.of_nat n + i))
  else Nat.min n (Z.to_nat i).

Definition slice {A} (lo hi : option Z) (l : list A) : list A :=
  let n := length l in
  let a := from_option (bound n) 0%nat lo in
  let b := from_option (bound n) n hi in
  take (b - a) (drop a l).

End PySlice.

(** ** Metric snapshots *)

Record ServiceMetrics := {
  timestamp : Z;
  service : string;
  cpu_usage : Q;
  memory_usage : Q;
  disk_usage : Q;
  network_errors : Z;
  restart_count : Z;
  health_status : string;
  response_time : Q;
  error_rate : Q;
  request_rate : Q
}.

Definition with_health_status (h : string) (m : ServiceMetrics) : ServiceMetrics :=
  {| timestamp := timestamp m; service := service m;
     cpu_usage := cpu_usage m; memory_usage := memory_usage m;
     disk_usage := disk_usage m; network_errors := network_errors m;
     restart_count := restart_count m; health_status := h;
     response_time := response_time m; error_rate := error_rate m;
     request_rate := request_rate m |}.

(** [ServiceMetrics.to_features]: the numpy array is a float array, the
    integer fields are converted on construction. *)
Definition to_features (self : ServiceMetrics) : list Q :=
  [ cpu_usage self;
    memory_usage self;
    disk_usage self;
    inject_Z (network_errors self);
    inject_Z (restart_count self);
    (if String.eqb (health_status self) "unhealthy" then 1 else 0)%Q;
    response_time self;
    error_rate self;
    request_rate self ].

(** [PredictiveRepairAgent.get_state] *)
Definition level (x : Q) : string :=
  if PyFloat.gtb x (7 # 10) then "high"
  else if PyFloat.gtb x (3 # 10) then "medium"
  else "low".

Definition health_bucket (h : string) : string :=
  if String.eqb h "unhealthy" then "unhealthy" else "healthy".

Definition get_state (metric : ServiceMetrics) : string :=
  let cpu_state := level (cpu_usage metric) in
  let mem_state := level (memory_usage metric) in
  let health_state := health_bucket (health_status metric) in
  service metric +:+ "_" +:+ cpu_state +:+ "_" +:+ mem_state +:+ "_" +:+ health_state.

(** ** The reward model *)

(** [PredictiveRepairAgent.calculate_reward], statement by statement. *)
Definition calculate_reward (before : ServiceMetrics)
    (after : option ServiceMetrics) (success : bool) : Q :=
  if negb success then (- (10))%Q
  else match after with
  | None => 0%Q
  | Some after =>
    let reward := 0%Q in
    let reward :=
      if PyFloat.ltb (cpu_usage after) (cpu_usage before)
      then (reward + 5 * (cpu_usage before - cpu_usage after))%Q else reward in
    let reward :=
      if PyFloat.ltb (memory_usage after) (memory_usage before)
      then (reward + 5 * (memory_usage before - memory_usage after))%Q else reward in
    let reward :=
      if PyFloat.ltb (error_rate after) (error_rate before)
      then (reward + 10 * (error_rate before - error_rate after))%Q else reward in
    let reward :=
      if PyFloat.ltb (response_time after) (response_time before)
      then (reward + 3 * (response_time before - response_time after))%Q else reward in
    let reward :=
      if String.eqb (health_status after) "healthy"
      then (reward + 5)%Q else reward in
    let reward :=
      if PyFloat.gtb (cpu_usage after) (cpu_usage before)
      then (reward - 3)%Q else reward in
    let reward :=
      if PyFloat.gtb (memory_usage after) (memory_usage before)
      then (reward - 3)%Q else reward in
    reward
  end.

(** The reward as the specification words it. *)
Definition indicator (b : bool) (v : Q) : Q := if b then v else 0%Q.

Definition reward_spec (before : ServiceMetrics)
    (after : option ServiceMetrics) (success : bool) : Q :=
  if success then
    match after with
    | None => 0%Q
    | Some after =>
      (5 * Qmax 0 (cpu_usage before - cpu_usage after)
       + 5 * Qmax 0 (memory_usage before - memory_usage after)
       + 10 * Qmax 0 (error_rate before - error_rate after)
       + 3 * Qmax 0 (response_time before - response_time after)
       - indicator (PyFloat.gtb (cpu_usage after) (cpu_usage before)) 3
       - indicator (PyFloat.gtb (memory_usage after) (memory_usage before)) 3
       + indicator (String.eqb (health_status after) "healthy") 5)%Q
    end
  else (- (10))%Q.

(** ** Methods that raise: state that survives an exception *)

Inductive outcome (A : Type) : Type :=
| Returned (x : A)
| Raised.
Arguments Returned {A} x.
Arguments Raised {A}.

Definition Py (St A : Type) : Type := St -> St * outcome A.

#[global] Instance Py_ret {St} : MRet (Py St) :=
  fun A x s => (s, Returned x).

#[global] Instance Py_bind {St} : MBind (Py St) :=
  fun A B k m s =>
    match m s with
    | (s', Returned x) => k x s'
    | (s', Raised) => (s', Raised)
    end.

Definition raise {St A} : Py St A := fun s => (s, Raised).

Definition gets {St A} (f : St -> A) : Py St A := fun s => (s, Returned (f s)).

Definition modify {St} (f : St -> St) : Py St unit := fun s => (f s, Returned tt).

(** [try: body except Exception: log] *)
Definition try_except {St} (body : Py St unit) : Py St unit :=
  fun s => (fst (body s), Returned tt).

(** A call into a library that returns a value or raises. *)
Definition call {St A} (r : option A) : Py St A :=
  match r with Some x => mret x | None => raise end.

(** [if cond: body] *)
Definition when {St} (cond : bool) (body : Py St unit) : Py St unit :=
  if cond then body else mret tt.

Definition exec {St A} (m : Py St A) (s : St) : St := fst (m s).

(** ** scikit-learn, as far as the agent uses it

    [None] stands for a raised exception (for instance [ValueError] on
    input the estimator rejects).  [*_bool] is the truth value Python
    gives the object in [if self.model:]. *)

Class Sklearn := {
  Scaler : Type;
  Classifier : Type;
  Detector : Type;
  StandardScaler : Scaler;
  fit_transform : Scaler -> list (list Q) -> option (Scaler * list (list Q));
  RandomForestClassifier : Classifier;
  classifier_fit : Classifier -> list (list Q) -> list Z -> option Classifier;
  IsolationForest : Detector;
  detector_fit : Detector -> list (list Q) -> option Detector;
  scaler_bool : Scaler -> option bool;
  classifier_bool : Classifier -> option bool;
  detector_bool : Detector -> option bool
}.

(** ** A bounded deque, oldest element first *)

Module Deque.

(** [deque.append] with [maxlen]: the item goes in on the right and,
    when the deque is then over its bound, one item leaves on the left. *)
Definition append {A} (maxlen : nat) (d : list A) (x : A) : list A :=
  let d' := d ++ [x] in
  if (maxlen <? length d')%nat then tail d' else d'.

(** The loop [for x in xs: d.append(x)]. *)
Definition extend {A} (maxlen : nat) (d : list A) (xs : list A) : list A :=
  foldl (append maxlen) d xs.

End Deque.

(** ** [max(iterable, key=...)]: the first maximal item *)

Fixpoint max_from {A} (key : A -> Q) (best : A) (l : list A) : A :=
  match l with
  | [] => best
  | x :: l' => max_from key (if PyFloat.gtb (key x) (key best) then x else best) l'
  end.

Definition py_max {A} (key : A -> Q) (l : list A) : option A :=
  match l with
  | [] => None
  | x :: l' => Some (max_from key x l')
  end.

(** ** Training data, as [train_models] builds it *)

(** The condition inside [any(...)]: [m] is a later snapshot. *)
Definition degraded_after (metric m : ServiceMetrics) : bool :=
  String.eqb (service m) (service metric)
  && (String.eqb (health_status m) "unhealthy"
      || (restart_count metric <? restart_count m)%Z).

Definition label (history : list ServiceMetrics) (i : nat)
    (metric : ServiceMetrics) : Z :=
  let future_metrics :=
    PySlice.slice (Some (Z.of_nat i + 1)%Z) (Some (Z.of_nat i + 6)%Z) history in
  let failed := existsb (degraded_after metric) future_metrics in
  if failed then 1%Z else 0%Z.

(** The snapshots the loop enumerates: [list(self.metrics_history)[:-10]]. *)
Definition training_window (history : list ServiceMetrics) : list ServiceMetrics :=
  PySlice.slice None (Some (-10)%Z) history.

Definition training_X (history : list ServiceMetrics) : list (list Q) :=
  to_features <$> training_window history.

Definition training_y (history : list ServiceMetrics) : list Z :=
  imap (label history) (training_window history).

(** ** The agent *)

Definition actions : list string :=
  [ "restart"; "scale_up"; "scale_down"; "clear_cache";
    "optimize_config"; "rollback"; "no_action" ].

Definition metrics_maxlen : nat := Z.to_nat 10000.

Section Agent.
Context {sk : Sklearn} {Failure : Type}.

Record agent := {
  failure_predictor : option Classifier;
  anomaly_detector : option Detector;
  scaler : option Scaler;
  q_table : gmap (string * string) Q;
  learning_rate : Q;
  discount_factor : Q;
  epsilon : Q;
  metrics_history : list ServiceMetrics;
  failure_history : list Failure
}.

Definition set_failure_predictor (v : option Classifier) (a : agent) : agent :=
  {| failure_predictor := v; anomaly_detector := anomaly_detector a;
     scaler := scaler a; q_table := q_table a;
     learning_rate := learning_rate a; discount_factor := discount_factor a;
     epsilon := epsilon a; metrics_history := metrics_history a;
     failure_history := failure_history a |}.

Definition set_anomaly_detector (v : option Detector) (a : agent) : agent :=
  {| failure_predictor := failure_predictor a; anomaly_detector := v;
     scaler := scaler a; q_table := q_table a;
     learning_rate := learning_rate a; discount_factor := discount_factor a;
     epsilon := epsilon a; metrics_history := metrics_history a;
     failure_history := failure_history a |}.

Definition set_scaler (v : option Scaler) (a : agent) : agent :=
  {| failure_predictor := failure_predictor a;
     anomaly_detector := anomaly_detector a;
     scaler := v; q_table := q_table a;
     learning_rate := learning_rate a; discount_factor := discount_factor a;
     epsilon := epsilon a; metrics_history := metrics_history a;
     failure_history := failure_history a |}.

Definition set_q_table (v : gmap (string * string) Q) (a : agent) : agent :=
  {| failure_predictor := failure_predictor a;
     anomaly_detector := anomaly_detector a;
     scaler := scaler a; q_table := v;
     learning_rate := learning_rate a; discount_factor := discount_factor a;
     epsilon := epsilon a; metrics_history := metrics_history a;
     failure_history := failure_history a |}.

Definition set_metrics_history (v : list ServiceMetrics) (a : agent) : agent :=
  {| failure_predictor := failure_predictor a;
     anomaly_detector := anomaly_detector a;
     scaler := scaler a; q_table := q_table a;
     learning_rate := learning_rate a; discount_factor := discount_factor a;
     epsilon := epsilon a; metrics_history := v;
     failure_history := failure_history a |}.

Definition set_failure_history (v : list Failure) (a : agent) : agent :=
  {| failure_predictor := failure_predictor a;
     anomaly_detector := anomaly_detector a;
     scaler := scaler a; q_table := q_table a;
     learning_rate := learning_rate a; discount_factor := discount_factor a;
     epsilon := epsilon a; metrics_history := metrics_history a;
     failure_history := v |}.

(** [__init__], before [load_models] and [load_history] run. *)
Definition new_agent : agent :=
  {| failure_predictor := None; anomaly_detector := None; scaler := None;
     q_table := ∅;
     learning_rate := 1 # 10; discount_factor := 95 # 100; epsilon := 1 # 10;
     metrics_history := []; failure_history := [] |}.

(** The loop of [run] that stores the collected metrics. *)
Definition store_metrics (metrics : list ServiceMetrics) (a : agent) : agent :=
  set_metrics_history (Deque.extend metrics_maxlen (metrics_history a) metrics) a.

(** *** Reinforcement learning *)

(** [self.q_table.get((state, action), 0.0)] *)
Definition q_get (q : gmap (string * string) Q) (state action : string) : Q :=
  default 0%Q (q !! (state, action)).

(** The dict [q_values]; a dict iterates in insertion order, and the
    seven action names are distinct, so its items are these pairs. *)
Definition q_values (a : agent) (state : string) : list (string * Q) :=
  (fun action => (action, q_get (q_table a) state action)) <$> actions.

(** [select_action].  [u] is the draw of [np.random.random()], in
    [0, 1); [pick] numbers the item [np.random.choice] draws.  [None]
    would be an exception. *)
Definition select_action (a : agent) (u : Q) (pick : nat) (state : string)
    : option string :=
  if PyFloat.ltb u (epsilon a) then actions !! (pick `mod` length actions)%nat
  else fst <$> py_max snd (q_values a state).

(** [update_q_value] *)
Definition update_q_value (state action : string) (reward : Q) (a : agent)
    : agent :=
  let current_q := q_get (q_table a) state action in
  let new_q := (current_q + learning_rate a * (reward - current_q))%Q in
  set_q_table (<[(state, action) := new_q]> (q_table a)) a.

(** *** Training *)

Definition is_set {A} (o : option A) : bool :=
  match o with Some _ => true | None => false end.

(** [self.scaler.fit_transform(X)]: fits the object held by the field. *)
Definition scaler_fit_transform (X : list (list Q)) : Py agent (list (list Q)) :=
  sc ← gets scaler ≫= call;
  r ← call (fit_transform sc X);
  modify (set_scaler (Some r.1));;
  mret r.2.

(** [self.failure_predictor.fit(X_scaled, y)] *)
Definition failure_predictor_fit (X : list (list Q)) (y : list Z) : Py agent unit :=
  m ← gets failure_predictor ≫= call;
  m' ← call (classifier_fit m X y);
  modify (set_failure_predictor (Some m')).

(** [self.anomaly_detector.fit(X_scaled)] *)
Definition anomaly_detector_fit (X : list (list Q)) : Py agent unit :=
  m ← gets anomaly_detector ≫= call;
  m' ← call (detector_fit m X);
  modify (set_anomaly_detector (Some m')).

Definition train_models : Py agent unit :=
  history ← gets metrics_history;
  if (length history <? 100)%nat then mret tt
  else try_except (
    let X := training_X history in
    let y := training_y history in
    modify (set_scaler (Some StandardScaler));;
    X_scaled ← scaler_fit_transform X;
    modify (set_failure_predictor (Some RandomForestClassifier));;
    failure_predictor_fit X_scaled y;;
    modify (set_anomaly_detector (Some IsolationForest));;
    anomaly_detector_fit X_scaled).

(** *** Persistence *)

Record history_data := {
  failures : list Failure;
  last_updated : Z
}.

(** What the agent sees of the file system.  A file is absent ([None]),
    present but unreadable ([Some None]), or holds a value. *)
Record disk := {
  makedirs_ok : bool;
  writable : bool;
  predictor_pkl : option (option Classifier);
  anomaly_pkl : option (option Detector);
  scaler_pkl : option (option Scaler);
  qtable_pkl : option (option (gmap (string * string) Q));
  history_json : option (option history_data)
}.

Definition set_predictor_pkl (v : Classifier) (d : disk) : disk :=
  {| makedirs_ok := makedirs_ok d; writable := writable d;
     predictor_pkl := Some (Some v); anomaly_pkl := anomaly_pkl d;
     scaler_pkl := scaler_pkl d; qtable_pkl := qtable_pkl d;
     history_json := history_json d |}.

Definition set_anomaly_pkl (v : Detector) (d : disk) : disk :=
  {| makedirs_ok := makedirs_ok d; writable := writable d;
     predictor_pkl := predictor_pkl d; anomaly_pkl := Some (Some v);
     scaler_pkl := scaler_pkl d; qtable_pkl := qtable_pkl d;
     history_json := history_json d |}.

Definition set_scaler_pkl (v : Scaler) (d : disk) : disk :=
  {| makedirs_ok := makedirs_ok d; writable := writable d;
     predictor_pkl := predictor_pkl d; anomaly_pkl := anomaly_pkl d;
     scaler_pkl := Some (Some v); qtable_pkl := qtable_pkl d;
     history_json := history_json d |}.

Definition set_qtable_pkl (v : gmap (string * string) Q) (d : disk) : disk :=
  {| makedirs_ok := makedirs_ok d; writable := writable d;
     predictor_pkl := predictor_pkl d; anomaly_pkl := anomaly_pkl d;
     scaler_pkl := scaler_pkl d; qtable_pkl := Some (Some v);
     history_json := history_json d |}.

Definition set_history_json (v : history_data) (d : disk) : disk :=
  {| makedirs_ok := makedirs_ok d; writable := writable d;
     predictor_pkl := predictor_pkl d; anomaly_pkl := anomaly_pkl d;
     scaler_pkl := scaler_pkl d; qtable_pkl := qtable_pkl d;
     history_json := Some (Some v) |}.

(** [if os.path.exists(path): self.field = joblib.load(path)] *)
Definition load_if_exists {A} (file : option (option A))
    (assign : option A -> agent -> agent) : Py agent unit :=
  match file with
  | None => mret tt
  | Some content => v ← call content; modify (assign (Some v))
  end.

Definition load_models (d : disk) : Py agent unit :=
  try_except (
    (if makedirs_ok d then mret tt else raise);;
    load_if_exists (predictor_pkl d) set_failure_predictor;;
    load_if_exists (anomaly_pkl d) set_anomaly_detector;;
    load_if_exists (scaler_pkl d) set_scaler;;
    match qtable_pkl d with
    | None => mret tt
    | Some content => v ← call content; modify (set_q_table v)
    end).

Definition makedirs : Py disk unit :=
  ok ← gets makedirs_ok; if (ok : bool) then mret tt else raise.

(** Writing one file: [joblib.dump] or [json.dump] into an opened file. *)
Definition dump {A} (write : A -> disk -> disk) (v : A) : Py disk unit :=
  ok ← gets writable; if (ok : bool) then modify (write v) else raise.

(** [if self.field: joblib.dump(self.field, path)] *)
Definition dump_if_set {A} (truth : A -> option bool) (field : option A)
    (write : A -> disk -> disk) : Py disk unit :=
  match field with
  | None => mret tt
  | Some v => t ← call (truth v); when t (dump write v)
  end.

Definition save_models (a : agent) : Py disk unit :=
  try_except (
    makedirs;;
    dump_if_set classifier_bool (failure_predictor a) set_predictor_pkl;;
    dump_if_set detector_bool (anomaly_detector a) set_anomaly_pkl;;
    dump_if_set scaler_bool (scaler a) set_scaler_pkl;;
    when (negb (bool_decide (q_table a = ∅))) (dump set_qtable_pkl (q_table a))).

(** The record [save_history] builds; [now] is [datetime.now()]. *)
Definition history_record (a : agent) (now : Z) : history_data :=
  {| failures := PySlice.slice (Some (-1000)%Z) None (failure_history a);
     last_updated := now |}.

Definition save_history (a : agent) (now : Z) : Py disk unit :=
  try_except (
    makedirs;;
    let data := history_record a now in
    dump set_history_json data).

(** *** The model group across operations *)

Record world := { agent_of : agent; disk_of : disk }.

Inductive operation := Train | Load | Save.

Definition step (op : operation) (w : world) : world :=
  match op with
  | Train => {| agent_of := exec train_models (agent_of w); disk_of := disk_of w |}
  | Load => {| agent_of := exec (load_models (disk_of w)) (agent_of w);
               disk_of := disk_of w |}
  | Save => {| agent_of := agent_of w;
               disk_of := exec (save_models (agent_of w)) (disk_of w) |}
  end.

Definition group_published (a : agent) : bool :=
  is_set (failure_predictor a) && is_set (anomaly_detector a) && is_set (scaler a).

Definition group_absent (a : agent) : bool :=
  negb (is_set (failure_predictor a)) && negb (is_set (anomaly_detector a))
  && negb (is_set (scaler a)).

Definition group_atomic (a : agent) : bool :=
  group_published a || group_absent a.

(** All three fits of a training run on this window go through. *)
Definition fits_succeed (history : list ServiceMetrics) : bool :=
  match fit_transform StandardScaler (training_X history) with
  | None => false
  | Some (_, X_scaled) =>
    is_set (classifier_fit RandomForestClassifier X_scaled (training_y history))
    && is_set (detector_fit IsolationForest X_scaled)
  end.

Definition loadable {A} (file : option (option A)) : bool :=
  match file with Some (Some _) => true | _ => false end.

Definition missing {A} (file : option (option A)) : bool :=
  match file with None => true | _ => false end.

(** The three model artifacts are all there and readable, or none is. *)
Definition artifacts_whole (d : disk) : bool :=
  (loadable (predictor_pkl d) && loadable (anomaly_pkl d) && loadable (scaler_pkl d))
  || (missing (predictor_pkl d) && missing (anomaly_pkl d) && missing (scaler_pkl d)).

(** An operation that either does nothing to the models or goes through
    all its assignments. *)
Definition runs_whole (op : operation) (w : world) : bool :=
  match op with
  | Train =>
    let history := metrics_history (agent_of w) in
    (length history <? 100)%nat || fits_succeed history
  | Load => negb (makedirs_ok (disk_of w)) || artifacts_whole (disk_of w)
  | Save => true
  end.

End Agent.

Arguments agent : clear implicits.
Arguments disk : clear implicits.
Arguments world : clear implicits.
Arguments history_data : clear implicits.

(** A stand-in for scikit-learn in examples: an estimator remembers what
    it was fitted on ([None] before any fit), and each of the three fits
    succeeds or raises as the flag says. *)
Definition sample_sklearn (scaler_ok classifier_ok detector_ok : bool) : Sklearn :=
  {| Scaler := option (list (list Q));
     Classifier := option (list (list Q) * list Z);
     Detector := option (list (list Q));
     StandardScaler := None;
     fit_transform := fun _ X => if scaler_ok then Some (Some X, X) else None;
     RandomForestClassifier := None;
     classifier_fit := fun _ X y => if classifier_ok then Some (Some (X, y)) else None;
     IsolationForest := None;
     detector_fit := fun _ X => if detector_ok then Some (Some X) else None;
     scaler_bool := fun _ => Some true;
     classifier_bool := fun _ => Some true;
     detector_bool := fun _ => Some true |}.

Definition sample_metric (svc : string) (restarts : Z) (health : string)
    : ServiceMetrics :=
  {| timestamp := 0; service := svc;
     cpu_usage := 1 # 2; memory_usage := 1 # 4; disk_usage := 1 # 2;
     network_errors := 0; restart_count := restarts; health_status := health;
     response_time := 1 # 5; error_rate := 0; request_rate := 10 |}.

(** Agents for examples; a failure entry is kept as its JSON text. *)
Definition fresh_agent : agent (sample_sklearn true true true) string :=
  new_agent.

Definition greedy_agent : agent (sample_sklearn true true true) string :=
  {| failure_predictor := None; anomaly_detector := None; scaler := None;
     q_table := ∅; learning_rate := 1 # 10; discount_factor := 95 # 100;
     epsilon := 0; metrics_history := []; failure_history := [] |}.

Definition empty_disk {sk : Sklearn} : disk sk string :=
  {| makedirs_ok := true; writable := true;
     predictor_pkl := None; anomaly_pkl := None; scaler_pkl := None;
     qtable_pkl := None; history_json := None |}.

(** One hundred snapshots of one quiet service. *)
Definition quiet_window : list ServiceMetrics :=
  replicate 100 (sample_metric "redis" 0 "healthy").


Definition agent_with_window {sk : Sklearn} (history : list ServiceMetrics)
    : agent sk string :=
  set_metrics_history history new_agent.

(** Only the classifier's artifact is on disk. *)
Definition classifier_only_disk {sk : Sklearn} : disk sk string :=
  set_predictor_pkl RandomForestClassifier empty_disk.

(** An agent of [sample_sklearn] with a published model group, fitted
    earlier on no data. *)
Definition published_agent (scaler_ok classifier_ok detector_ok : bool)
    : agent (sample_sklearn scaler_ok classifier_ok detector_ok) string :=
  let sk := sample_sklearn scaler_ok classifier_ok detector_ok in
  let old_scaler : @Scaler sk := Some [] in
  let old_classifier : @Classifier sk := Some ([], []) in
  let old_detector : @Detector sk := Some [] in
  set_scaler (Some old_scaler)
    (set_anomaly_detector (Some old_detector)
       (set_failure_predictor (Some old_classifier)
          (agent_with_window quiet_window))).

(** ** Further methods of the agent *)

(** [estimate_time_to_failure], in seconds. *)
Definition estimate_time_to_failure (metric : ServiceMetrics) : Z :=
  if PyFloat.gtb (cpu_usage metric) (9 # 10) then 60%Z
  else if PyFloat.gtb (cpu_usage metric) (8 # 10) then 300%Z
  else if PyFloat.gtb (memory_usage metric) (9 # 10) then 120%Z
  else if PyFloat.gtb (error_rate metric) (5 # 10) then 180%Z
  else 600%Z.

Section History.
Context {sk : Sklearn} {Failure : Type}.

(** [load_history].  A file that parses but has no ['failures'] entry reads
    as one whose list is empty ([data.get('failures', [])]); anything else
    that goes wrong is the unreadable file. *)
Definition load_history (d : disk sk Failure) : Py (agent sk Failure) unit :=
  try_except (
    match history_json d with
    | None => mret tt
    | Some content =>
      data ← call content;
      modify (set_failure_history (failures data))
    end).

(** The storing loop of [run], tick after tick. *)
Definition store_ticks (ticks : list (list ServiceMetrics))
    (a : agent sk Failure) : agent sk Failure :=
  foldl (fun a metrics => store_metrics metrics a) a ticks.

End History.

(** No snapshot has another one of its service among the five entries
    after it. *)
Fixpoint services_spread (history : list ServiceMetrics) : bool :=
  match history with
  | [] => true
  | m :: later =>
    negb (existsb (fun m' => String.eqb (service m') (service m)) (take 5 later))
    && services_spread later
  end.

(** The part of a state key that follows the service name. *)
Definition key_tail (m : ServiceMetrics) : string :=
  "_" +:+ level (cpu_usage m) +:+ "_" +:+ level (memory_usage m)
  +:+ "_" +:+ health_bucket (health_status m).

Definition underscores (l : list Ascii.ascii) : nat :=
  length (filter (fun c => c = "_"%char) l).

(** ** The world outside the process

    Exceptions now carry their class, because [execute_action] catches
    [subprocess.CalledProcessError] only. *)

Inductive exn :=
| CalledProcessError
| OtherError.

Inductive result (A : Type) : Type :=
| Done (x : A)
| Thrown (e : exn).
Arguments Done {A} x.
Arguments Thrown {A} e.

Definition IO (St A : Type) : Type := St -> St * result A.

#[global] Instance IO_ret {St} : MRet (IO St) :=
  fun A x s => (s, Done x).

#[global] Instance IO_bind {St} : MBind (IO St) :=
  fun A B k m s =>
    match m s with
    | (s', Done x) => k x s'
    | (s', Thrown e) => (s', Thrown e)
    end.

Definition throw {St A} (e : exn) : IO St A := fun s => (s, Thrown e).

Definition io_gets {St A} (f : St -> A) : IO St A := fun s => (s, Done (f s)).

Definition io_modify {St} (f : St -> St) : IO St unit := fun s => (f s, Done tt).

(** [try: body except: handler] and [except Exception]. *)
Definition catch_all {St A} (body handler : IO St A) : IO St A :=
  fun s =>
    match body s with
    | (s', Done x) => (s', Done x)
    | (s', Thrown _) => handler s'
    end.

(** [try: body except subprocess.CalledProcessError: handler] *)
Definition catch_called_process_error {St A} (body handler : IO St A) : IO St A :=
  fun s =>
    match body s with
    | (s', Thrown CalledProcessError) => handler s'
    | other => other
    end.

(** A value a library hands back, or its exception. *)
Definition io_call {St A} (r : option A) : IO St A :=
  match r with Some x => mret x | None => throw OtherError end.

(** What a child process did: it ran and exited, or could not be started
    ([OSError], for instance a missing executable). *)
Inductive proc_result :=
| Exited (returncode : Z) (stdout : string)
| NotStarted.

(** What [requests.get] gave: an exception, or a response with its status
    and, when the body parses, the entries of [data.result], each reduced
    to what [float(entry['value'][1])] makes of it ([None]: that raises). *)
Inductive http_result :=
| NoAnswer
| Response (status_code : Z) (results : option (list (option Q))).

(** The outside world answers the [n]-th external call of the process. *)
Class Outside := {
  process : nat -> list string -> proc_result;
  http : nat -> string -> http_result;
  random : nat -> Q;
  choice : nat -> nat;
  clock : nat -> Z
}.

(** How many external calls were made, and the commands run so far. *)
Record env := {
  calls : nat;
  commands : list (list string)
}.

Section Subprocess.
Context {out : Outside}.

Definition subprocess_run (argv : list string) (check : bool) : IO env string :=
  fun e =>
    let e' := {| calls := S (calls e); commands := commands e ++ [argv] |} in
    match process (calls e) argv with
    | NotStarted => (e', Thrown OtherError)
    | Exited returncode stdout =>
      if check && negb (returncode =? 0)%Z
      then (e', Thrown CalledProcessError)
      else (e', Done stdout)
    end.

Definition requests_get (query : string) : IO env http_result :=
  fun e =>
    ({| calls := S (calls e); commands := commands e |}, Done (http (calls e) query)).

Definition np_random_random : IO env Q :=
  fun e => ({| calls := S (calls e); commands := commands e |}, Done (random (calls e))).

Definition np_random_choice : IO env nat :=
  fun e => ({| calls := S (calls e); commands := commands e |}, Done (choice (calls e))).

Definition datetime_now : IO env Z :=
  fun e => ({| calls := S (calls e); commands := commands e |}, Done (clock (calls e))).

End Subprocess.

(** ** Text: [str.strip] and [str.split] on ASCII text *)

Module PyStr.

(** [str.isspace] on one ASCII character: codes 9..13 and 28..32. *)
Definition is_space (c : ascii) : bool :=
  let n := nat_of_ascii c in
  ((9 <=? n) && (n <=? 13) || (28 <=? n) && (n <=? 32))%nat.

Fixpoint lstrip (s : string) : string :=
  match s with
  | EmptyString => EmptyString
  | String c s' => if is_space c then lstrip s' else s
  end.

Definition rstrip (s : string) : string :=
  String.rev (lstrip (String.rev s)).

Definition strip (s : string) : string := rstrip (lstrip s).

(** [s.split(sep)] for a one-character separator: never an empty list. *)
Fixpoint split (sep : ascii) (s : string) : list string :=
  match s with
  | EmptyString => [EmptyString]
  | String c s' =>
    if Ascii.eqb c sep then EmptyString :: split sep s'
    else match split sep s' with
         | first :: rest => String c first :: rest
         | [] => [String c EmptyString]
         end
  end.

(** The truth value of a string: it is not empty. *)
Definition truthy (s : string) : bool :=
  match s with EmptyString => false | String _ _ => true end.

Definition newline : ascii := ascii_of_nat 10.

End PyStr.

(** ** Repair actions *)

Section Actions.
Context {out : Outside}.

(** [get_service_scale] *)
Definition get_service_scale (service : string) : IO env nat :=
  catch_all
    (stdout ← subprocess_run ["docker-compose"; "ps"; "-q"; service] true;
     mret (length (filter (fun line => PyStr.truthy line = true)
                     (PyStr.split PyStr.newline (PyStr.strip stdout)))))
    (mret 1%nat).

(** The argument [f'{service}={n}'] of [--scale]. *)
Definition scale_argument (service : string) (n : nat) : string :=
  service +:+ "=" +:+ pretty n.

(** [execute_action] *)
Definition execute_action (service action : string) : IO env bool :=
  catch_called_process_error
    (if String.eqb action "restart" then
       subprocess_run ["docker-compose"; "restart"; service] true;;
       mret true
     else if String.eqb action "scale_up" then
       current_scale ← get_service_scale service;
       subprocess_run ["docker-compose"; "up"; "-d"; "--scale";
                       scale_argument service (current_scale + 1)] true;;
       mret true
     else if String.eqb action "scale_down" then
       current_scale ← get_service_scale service;
       if (1 <? current_scale)%nat then
         subprocess_run ["docker-compose"; "up"; "-d"; "--scale";
                         scale_argument service (current_scale - 1)] true;;
         mret true
       else mret false
     else if String.eqb action "clear_cache" then
       if String.eqb service "redis" then
         subprocess_run ["docker-compose"; "exec"; "-T"; "redis"; "redis-cli";
                         "FLUSHDB"] true;;
         mret true
       else mret false
     else if String.eqb action "optimize_config" then mret true
     else if String.eqb action "rollback" then mret true
     else if String.eqb action "no_action" then mret true
     else mret false)
    (mret false).

(** [get_health_status] *)
Definition get_health_status (service : string) : IO env string :=
  catch_all
    (stdout ← subprocess_run ["docker-compose"; "ps"; "-q"; service] true;
     let container_id := PyStr.strip stdout in
     if negb (PyStr.truthy container_id) then mret "down"
     else
       stdout ← subprocess_run
                  ["docker"; "inspect"; "-f"; "{{.State.Health.Status}}";
                   container_id] false;
       let health := PyStr.strip stdout in
       mret (if PyStr.truthy health then health else "unknown"))
    (mret "unknown").

End Actions.

(** Commands the agent issues, and the environment after some were run. *)
Definition ps_command (service : string) : list string :=
  ["docker-compose"; "ps"; "-q"; service].

Definition restart_command (service : string) : list string :=
  ["docker-compose"; "restart"; service].

Definition scale_command (service : string) (n : nat) : list string :=
  ["docker-compose"; "up"; "-d"; "--scale"; scale_argument service n].

Definition ran (e : env) (argvs : list (list string)) : env :=
  {| calls := length argvs + calls e; commands := commands e ++ argvs |}.

(** The number [get_service_scale] reads off the listing of containers. *)
Definition listed_scale (r : proc_result) : nat :=
  match r with
  | Exited 0 stdout =>
    length (filter (fun line => PyStr.truthy line = true)
              (PyStr.split PyStr.newline (PyStr.strip stdout)))
  | _ => 1%nat
  end.

(** An outside world for examples: the [n]-th external call is answered by
    the [n]-th entry of the script it belongs to. *)
Definition scripted_outside (procs : list proc_result)
    (answers : list http_result) (draws : list Q) : Outside :=
  {| process := fun n _ => default NotStarted (procs !! n);
     http := fun n _ => default NoAnswer (answers !! n);
     random := fun n => default 0%Q (draws !! n);
     choice := fun n => n;
     clock := fun n => Z.of_nat n |}.

Definition fresh_env : env := {| calls := 0; commands := [] |}.

(** Lines of text, each ended by a newline. *)
Definition lines_text (lines : list string) : string :=
  foldr (fun line text => line +:+ String PyStr.newline text) EmptyString lines.

(** ** Collecting metrics *)

(** [int(x)] on a float: towards zero. *)
Definition py_int (x : Q) : Z := Z.quot (Qnum x) (Zpos (Qden x)).

(** [x or 0] on a float. *)
Definition or_zero (x : Q) : Q := if Qeq_bool x 0 then 0%Q else x.

(** The double quote, for the label matchers of the queries. *)
Definition dq : string := String (ascii_of_nat 34) EmptyString.

Definition compose_label (service : string) : string :=
  "{container_label_com_docker_compose_service=" +:+ dq +:+ service +:+ dq +:+ "}".

Definition cpu_query (service : string) : string :=
  "rate(container_cpu_usage_seconds_total" +:+ compose_label service +:+ "[1m])".

Definition memory_query (service : string) : string :=
  "container_memory_usage_bytes" +:+ compose_label service
  +:+ " / container_spec_memory_limit_bytes".

Definition disk_query : string :=
  "node_filesystem_avail_bytes / node_filesystem_size_bytes".

Definition network_errors_query (service : string) : string :=
  "rate(container_network_receive_errors_total" +:+ compose_label service +:+ "[5m])".

Definition restart_count_query (service : string) : string :=
  "container_restart_count" +:+ compose_label service.

Definition response_time_query (service : string) : string :=
  "histogram_quantile(0.95, rate(http_request_duration_seconds_bucket{service="
  +:+ dq +:+ service +:+ dq +:+ "}[5m]))".

Definition error_rate_query (service : string) : string :=
  "rate(http_requests_total{service=" +:+ dq +:+ service +:+ dq
  +:+ ", status=~" +:+ dq +:+ "5.." +:+ dq +:+ "}[5m])".

Definition request_rate_query (service : string) : string :=
  "rate(http_requests_total{service=" +:+ dq +:+ service +:+ dq +:+ "}[5m])".

Definition services : list string :=
  [ "threat-detection-app"; "dashboard"; "postgres"; "redis";
    "prometheus"; "grafana"; "celery-worker" ].

Section Collecting.
Context {out : Outside}.

(** [get_prometheus_metric] *)
Definition get_prometheus_metric (query : string) : IO env Q :=
  catch_all
    (response ← requests_get query;
     match response with
     | NoAnswer => throw OtherError
     | Response status_code body =>
       if (status_code =? 200)%Z then
         results ← io_call body;
         match results with
         | first :: _ => io_call first
         | [] => mret 0%Q
         end
       else mret 0%Q
     end)
    (mret 0%Q).

(** The construction of one [ServiceMetrics]; the arguments are evaluated
    in the order written. *)
Definition collect_service (service : string) : IO env ServiceMetrics :=
  now ← datetime_now;
  cpu ← get_prometheus_metric (cpu_query service);
  memory ← get_prometheus_metric (memory_query service);
  dsk ← get_prometheus_metric disk_query;
  network ← get_prometheus_metric (network_errors_query service);
  restarts ← get_prometheus_metric (restart_count_query service);
  health ← get_health_status service;
  response ← get_prometheus_metric (response_time_query service);
  errors ← get_prometheus_metric (error_rate_query service);
  requests ← get_prometheus_metric (request_rate_query service);
  mret {| timestamp := now; service := service;
          cpu_usage := cpu; memory_usage := memory; disk_usage := dsk;
          network_errors := py_int (or_zero network);
          restart_count := py_int (or_zero restarts);
          health_status := health;
          response_time := response; error_rate := errors;
          request_rate := requests |}.

(** The loop of [collect_metrics] over the services still to visit. *)
Fixpoint collect_loop (todo : list string) (metrics : list ServiceMetrics)
    : IO env (list ServiceMetrics) :=
  match todo with
  | [] => mret metrics
  | service :: rest =>
    metrics' ← catch_all
                 (metric ← collect_service service; mret (metrics ++ [metric]))
                 (mret metrics);
    collect_loop rest metrics'
  end.

Definition collect_metrics : IO env (list ServiceMetrics) :=
  collect_loop services [].

End Collecting.

(** A computation that always returns, with a result satisfying [P]. *)
Definition returns {St A} (P : A -> Prop) (m : IO St A) : Prop :=
  forall s, exists s' x, m s = (s', Done x) /\ P x.

(** A snapshot whose numeric fields are all zero. *)
Definition all_zero (m : ServiceMetrics) : Prop :=
  cpu_usage m = 0%Q /\ memory_usage m = 0%Q /\ disk_usage m = 0%Q
  /\ network_errors m = 0%Z /\ restart_count m = 0%Z
  /\ response_time m = 0%Q /\ error_rate m = 0%Q /\ request_rate m = 0%Q.

(** What every collected snapshot satisfies: a health status, and zeros
    when the metrics backend gives no answer. *)
Definition well_collected {out : Outside} (m : ServiceMetrics) : Prop :=
  health_status m <> EmptyString
  /\ ((forall n q, http n q = NoAnswer) -> all_zero m).

(** ** Predictions, anomalies and learning from outcomes *)

(** The inference side of scikit-learn; [None] stands for an exception
    (for instance [NotFittedError]). *)
Class SklearnPredict (sk : Sklearn) := {
  transform : Scaler -> list (list Q) -> option (list (list Q));
  predict_proba : Classifier -> list (list Q) -> option (list (list Q));
  feature_importances : Classifier -> option (list Q);
  predict : Detector -> list (list Q) -> option (list Z)
}.

Module FailurePrediction.
Record t := {
  service : string;
  probability : Q;
  predicted_failure_time : Z;
  recommended_action : string;
  confidence : Q;
  features_importance : list (string * Q)
}.
End FailurePrediction.

Module RepairAction.
Record t := {
  timestamp : Z;
  service : string;
  action : string;
  metrics_before : ServiceMetrics;
  metrics_after : option ServiceMetrics;
  success : bool;
  reward : Q
}.
End RepairAction.

Definition feature_names : list string :=
  [ "cpu"; "memory"; "disk"; "network_errors"; "restarts";
    "health"; "response_time"; "error_rate"; "request_rate" ].

(** [max(x, y)] on two floats: the first one unless the second is greater. *)
Definition py_max2 (x y : Q) : Q := if PyFloat.gtb y x then y else x.

Section Runtime.
Context {sk : Sklearn} {skp : SklearnPredict sk} {Failure : Type} {out : Outside}.

(** The running agent: its fields, the repair records, the outside world
    as far as it has been used, and the files. *)
Record runtime := {
  agent_now : agent sk Failure;
  repair_history : list RepairAction.t;
  outside_now : env;
  disk_now : disk sk Failure
}.

Definition set_agent_now (a : agent sk Failure) (s : runtime) : runtime :=
  {| agent_now := a; repair_history := repair_history s;
     outside_now := outside_now s; disk_now := disk_now s |}.

Definition set_repair_history (h : list RepairAction.t) (s : runtime) : runtime :=
  {| agent_now := agent_now s; repair_history := h;
     outside_now := outside_now s; disk_now := disk_now s |}.

Definition set_outside_now (e : env) (s : runtime) : runtime :=
  {| agent_now := agent_now s; repair_history := repair_history s;
     outside_now := e; disk_now := disk_now s |}.

Definition set_disk_now (d : disk sk Failure) (s : runtime) : runtime :=
  {| agent_now := agent_now s; repair_history := repair_history s;
     outside_now := outside_now s; disk_now := d |}.

(** Running a computation on one part of the state. *)
Definition on_env {A} (m : IO env A) : IO runtime A :=
  fun s => (set_outside_now (fst (m (outside_now s))) s, snd (m (outside_now s))).

Definition as_result {A} (o : outcome A) : result A :=
  match o with Returned x => Done x | Raised => Thrown OtherError end.

Definition on_agent {A} (m : Py (agent sk Failure) A) : IO runtime A :=
  fun s => (set_agent_now (fst (m (agent_now s))) s, as_result (snd (m (agent_now s)))).

Definition on_disk {A} (m : Py (disk sk Failure) A) : IO runtime A :=
  fun s => (set_disk_now (fst (m (disk_now s))) s, as_result (snd (m (disk_now s)))).

(** [for x in l: f(x)] *)
Definition for_each {A} (f : A -> IO runtime unit) (l : list A) : IO runtime unit :=
  foldr (fun x rest => f x;; rest) (mret tt) l.

(** The truth value of [self.model]: [None] is false, an object has the
    truth value its class gives it, and asking for it may raise. *)
Definition truth {A} (bool_of : A -> option bool) (field : option A) : IO runtime bool :=
  match field with
  | None => mret false
  | Some x => io_call (bool_of x)
  end.

(** [select_action] with its draws taken from the outside world. *)
Definition select_action_io (state : string) : IO runtime string :=
  a ← io_gets agent_now;
  u ← on_env np_random_random;
  if PyFloat.ltb u (epsilon a) then
    pick ← on_env np_random_choice;
    io_call (select_action a u pick state)
  else io_call (select_action a u 0 state).

(** The body of the loop of [predict_failures]. *)
Definition predict_one (metric : ServiceMetrics) : IO runtime FailurePrediction.t :=
  a ← io_gets agent_now;
  let features := [to_features metric] in
  scaler_now ← io_call (scaler a);
  features_scaled ← io_call (transform scaler_now features);
  predictor ← io_call (failure_predictor a);
  proba ← io_call (predict_proba predictor features_scaled);
  row ← io_call (proba !! 0%nat);
  failure_prob ← io_call (row !! 1%nat);
  importances ← io_call (feature_importances predictor);
  let importance := zip feature_names importances in
  let state := get_state metric in
  action ← select_action_io state;
  predicted_time ←
    (if PyFloat.gtb failure_prob (1 # 2) then
       let time_to_failure := estimate_time_to_failure metric in
       now ← on_env datetime_now;
       mret (now + time_to_failure)%Z
     else
       now ← on_env datetime_now;
       mret (now + 86400)%Z);
  mret {| FailurePrediction.service := service metric;
          FailurePrediction.probability := failure_prob;
          FailurePrediction.predicted_failure_time := predicted_time;
          FailurePrediction.recommended_action := action;
          FailurePrediction.confidence := py_max2 failure_prob (1 - failure_prob);
          FailurePrediction.features_importance := importance |}.

Fixpoint predict_loop (todo : list ServiceMetrics)
    (predictions : list FailurePrediction.t) : IO runtime (list FailurePrediction.t) :=
  match todo with
  | [] => mret predictions
  | metric :: rest =>
    predictions' ← catch_all
                     (prediction ← predict_one metric;
                      mret (predictions ++ [prediction]))
                     (mret predictions);
    predict_loop rest predictions'
  end.

(** [predict_failures] *)
Definition predict_failures (current_metrics : list ServiceMetrics)
    : IO runtime (list FailurePrediction.t) :=
  a ← io_gets agent_now;
  has_predictor ← truth classifier_bool (failure_predictor a);
  if negb has_predictor then mret []
  else
    has_scaler ← truth scaler_bool (scaler a);
    if negb has_scaler then mret []
    else predict_loop current_metrics [].

(** The body of the loop of [detect_anomalies]: is this snapshot one? *)
Definition is_anomaly (metric : ServiceMetrics) : IO runtime bool :=
  a ← io_gets agent_now;
  let features := [to_features metric] in
  scaler_now ← io_call (scaler a);
  features_scaled ← io_call (transform scaler_now features);
  detector ← io_call (anomaly_detector a);
  predictions ← io_call (predict detector features_scaled);
  prediction ← io_call (predictions !! 0%nat);
  mret (prediction =? -1)%Z.

Fixpoint detect_loop (todo anomalies : list ServiceMetrics)
    : IO runtime (list ServiceMetrics) :=
  match todo with
  | [] => mret anomalies
  | metric :: rest =>
    anomalies' ← catch_all
                   (found ← is_anomaly metric;
                    mret (if found : bool then anomalies ++ [metric] else anomalies))
                   (mret anomalies);
    detect_loop rest anomalies'
  end.

(** [detect_anomalies] *)
Definition detect_anomalies (current_metrics : list ServiceMetrics)
    : IO runtime (list ServiceMetrics) :=
  a ← io_gets agent_now;
  has_detector ← truth detector_bool (anomaly_detector a);
  if negb has_detector then mret []
  else
    has_scaler ← truth scaler_bool (scaler a);
    if negb has_scaler then mret []
    else detect_loop current_metrics [].

(** [take_preventive_action]; the 30 seconds of sleep leave no trace. *)
Definition take_preventive_action (prediction : FailurePrediction.t)
    : IO runtime unit :=
  let service_name := FailurePrediction.service prediction in
  let action := FailurePrediction.recommended_action prediction in
  collected ← on_env collect_metrics;
  let current_metrics := filter (fun m => service m = service_name) collected in
  match current_metrics with
  | [] => mret tt
  | metrics_before :: _ =>
    success ← on_env (execute_action service_name action);
    collected_after ← on_env collect_metrics;
    let metrics_after_list :=
      filter (fun m => service m = service_name) collected_after in
    let metrics_after := head metrics_after_list in
    let reward := calculate_reward metrics_before metrics_after success in
    now ← on_env datetime_now;
    let record :=
      {| RepairAction.timestamp := now;
         RepairAction.service := service_name;
         RepairAction.action := action;
         RepairAction.metrics_before := metrics_before;
         RepairAction.metrics_after := metrics_after;
         RepairAction.success := success;
         RepairAction.reward := reward |} in
    io_modify (fun s => set_repair_history (repair_history s ++ [record]) s);;
    let state := get_state metrics_before in
    io_modify (fun s => set_agent_now (update_q_value state action reward (agent_now s)) s)
  end.

(** [handle_anomaly] *)
Definition handle_anomaly (metric : ServiceMetrics) : IO runtime unit :=
  let state := get_state metric in
  action ← select_action_io state;
  success ← on_env (execute_action (service metric) action);
  mret tt.

(** [save_models] and [save_history] as the loop calls them; the clock is
    read for the history only once its directory exists. *)
Definition save_models_now : IO runtime unit :=
  a ← io_gets agent_now;
  on_disk (save_models a).

Definition save_history_now : IO runtime unit :=
  a ← io_gets agent_now;
  d ← io_gets disk_now;
  now ← (if makedirs_ok d then on_env datetime_now else mret 0%Z);
  on_disk (save_history a now).

(** The end of an iteration of [run]: periodic training and saving. *)
Definition end_of_tick : IO runtime unit :=
  a ← io_gets agent_now;
  (if (length (metrics_history a) `mod` 100 =? 0)%nat
   then on_agent train_models else mret tt);;
  a ← io_gets agent_now;
  if (length (metrics_history a) `mod` 500 =? 0)%nat
  then save_models_now;; save_history_now
  else mret tt.

(** One iteration of the loop of [run]; [except Exception] logs and goes
    on.  An interrupt from the keyboard is not modelled. *)
Definition tick : IO runtime unit :=
  catch_all
    (metrics ← on_env collect_metrics;
     io_modify (fun s => set_agent_now (store_metrics metrics (agent_now s)) s);;
     predictions ← predict_failures metrics;
     for_each (fun prediction =>
                 if PyFloat.gtb (FailurePrediction.probability prediction) (7 # 10)
                 then take_preventive_action prediction else mret tt)
       predictions;;
     anomalies ← detect_anomalies metrics;
     for_each handle_anomaly anomalies;;
     end_of_tick)
    (mret tt).

(** [n] iterations of the loop. *)
Definition ticks (n : nat) : IO runtime unit :=
  Nat.iter n (fun rest => tick;; rest) (mret tt).

(** A computation that leaves an observation of the state as it was,
    whether it returns or raises. *)
Definition keeps {X A} (f : runtime -> X) (m : IO runtime A) : Prop :=
  forall s, f (fst (m s)) = f s.

End Runtime.

Arguments runtime : clear implicits.

(** A computation whose result, when it returns one, satisfies [P]. *)
Definition ensures {St A} (P : A -> Prop) (m : IO St A) : Prop :=
  forall s s' x, m s = (s', Done x) -> P x.

(** Inference for [sample_sklearn]: an unfitted estimator raises; a fitted
    scaler passes the rows through, a fitted classifier gives every row the
    probabilities [proba], a fitted detector gives every row [verdict]. *)
Definition sample_transform (sc : option (list (list Q))) (X : list (list Q))
    : option (list (list Q)) :=
  match sc with Some _ => Some X | None => None end.

Definition sample_predict_proba (proba : list Q)
    (clf : option (list (list Q) * list Z)) (X : list (list Q))
    : option (list (list Q)) :=
  match clf with Some _ => Some ((fun _ => proba) <$> X) | None => None end.

Definition sample_feature_importances (clf : option (list (list Q) * list Z))
    : option (list Q) :=
  match clf with Some _ => Some (replicate 9 (1 # 9)%Q) | None => None end.

Definition sample_detector_predict (verdict : Z) (det : option (list (list Q)))
    (X : list (list Q)) : option (list Z) :=
  match det with Some _ => Some ((fun _ => verdict) <$> X) | None => None end.

Definition sample_predict (scaler_ok classifier_ok detector_ok : bool)
    (proba : list Q) (verdict : Z)
    : SklearnPredict (sample_sklearn scaler_ok classifier_ok detector_ok) :=
  @Build_SklearnPredict (sample_sklearn scaler_ok classifier_ok detector_ok)
    sample_transform (sample_predict_proba proba) sample_feature_importances
    (sample_detector_predict verdict).

Definition start_runtime {sk : Sklearn} (a : agent sk string) : runtime sk string :=
  {| agent_now := a; repair_history := []; outside_now := fresh_env;
     disk_now := empty_disk |}.


(** The window of the running agent. *)
Definition window_now {sk : Sklearn} {Failure : Type} (s : runtime sk Failure)
    : list ServiceMetrics :=
  metrics_history (agent_now s).


(** * Properties *)

(** ** Float comparisons and slices *)

Lemma ltb_lt x y : PyFloat.ltb x y = true <-> (x < y)%Q.
Proof.
  unfold PyFloat.ltb. rewrite Qlt_alt.
  destruct (x ?= y)%Q; intuition congruence.
Qed.

Lemma ltb_ge x y : PyFloat.ltb x y = false <-> (y <= x)%Q.
Proof.
  rewrite <- not_true_iff_false, ltb_lt. split.
  - apply Qnot_lt_le.
  - apply Qle_not_lt.
Qed.

Lemma gtb_gt x y : PyFloat.gtb x y = true <-> (y < x)%Q.
Proof. apply ltb_lt. Qed.

Lemma gtb_le x y : PyFloat.gtb x y = false <-> (x <= y)%Q.
Proof. apply ltb_ge. Qed.

(** Case analysis on a float comparison, leaving the order fact. *)
Ltac float_cases :=
  repeat match goal with
  | |- context [PyFloat.ltb ?x ?y] =>
    let H := fresh "Hcmp" in
    destruct (PyFloat.ltb x y) eqn:H;
    [apply ltb_lt in H | apply ltb_ge in H]
  | |- context [PyFloat.gtb ?x ?y] =>
    let H := fresh "Hcmp" in
    destruct (PyFloat.gtb x y) eqn:H;
    [apply gtb_gt in H | apply gtb_le in H]
  end.

(** [l[:-k]] for a positive [k]. *)
Lemma slice_drop_last {A} (k : Z) (l : list A) :
  (0 < k)%Z ->
  PySlice.slice None (Some (- k)%Z) l = take (length l - Z.to_nat k) l.
Proof.
  intros Hk. unfold PySlice.slice, PySlice.bound. simpl.
  destruct (Z.ltb_spec (- k) 0); [|lia].
  rewrite drop_0. f_equal. lia.
Qed.

(** [l[-k:]] for a positive [k]. *)
Lemma slice_last {A} (k : Z) (l : list A) :
  (0 < k)%Z ->
  PySlice.slice (Some (- k)%Z) None l = drop (length l - Z.to_nat k) l.
Proof.
  intros Hk. unfold PySlice.slice, PySlice.bound. simpl.
  destruct (Z.ltb_spec (- k) 0); [|lia].
  replace (Z.to_nat (Z.max 0 (Z.of_nat (length l) + - k)))
    with (length l - Z.to_nat k)%nat by lia.
  apply take_ge. rewrite length_drop. lia.
Qed.

(** [l[i+1:i+1+k]] for a natural [i]. *)
Lemma slice_window {A} (i : nat) (k : Z) (l : list A) :
  (0 <= k)%Z ->
  PySlice.slice (Some (Z.of_nat i + 1)%Z) (Some (Z.of_nat i + 1 + k)%Z) l
  = take (Z.to_nat k) (drop (S i) l).
Proof.
  intros Hk. unfold PySlice.slice, PySlice.bound. simpl.
  destruct (Z.ltb_spec (Z.of_nat i + 1) 0); [lia|].
  destruct (Z.ltb_spec (Z.of_nat i + 1 + k) 0); [lia|].
  replace (Z.to_nat (Z.of_nat i + 1)) with (S i) by lia.
  replace (Z.to_nat (Z.of_nat i + 1 + k)) with (S i + Z.to_nat k)%nat by lia.
  destruct (Nat.le_gt_cases (length l) (S i)) as [Hle|Hgt].
  - rewrite (drop_ge l) by lia. rewrite drop_ge by lia.
    by rewrite !take_nil.
  - rewrite (Nat.min_r (length l) (S i)) by lia.
    destruct (Nat.le_gt_cases (length l) (S i + Z.to_nat k)) as [Hle'|Hgt'].
    + rewrite Nat.min_l by lia.
      rewrite !take_ge; [done | rewrite length_drop; lia
                        | rewrite length_drop; lia].
    + rewrite Nat.min_r by lia. f_equal. lia.
Qed.

(** ** Feature extraction and state discretisation *)

Lemma eqb_unhealthy (h : string) :
  String.eqb h "unhealthy" = bool_decide (h = "unhealthy").
Proof.
  destruct (String.eqb_spec h "unhealthy") as [->|Hne].
  - done.
  - by rewrite bool_decide_eq_false_2.
Qed.

(** C8.  [to_features] is a function of the nine metric fields alone
    (neither the timestamp nor the service name enters), its result always
    has nine components, and the component at index 5 is 1 exactly when
    [health_status] is ['unhealthy'] and 0 otherwise. *)
Theorem to_features_nine_dimensional :
  forall t1 t2 s1 s2 cpu mem dsk net rst h resp err req,
    let m1 := {| timestamp := t1; service := s1; cpu_usage := cpu;
                 memory_usage := mem; disk_usage := dsk; network_errors := net;
                 restart_count := rst; health_status := h;
                 response_time := resp; error_rate := err; request_rate := req |} in
    let m2 := {| timestamp := t2; service := s2; cpu_usage := cpu;
                 memory_usage := mem; disk_usage := dsk; network_errors := net;
                 restart_count := rst; health_status := h;
                 response_time := resp; error_rate := err; request_rate := req |} in
    to_features m1 = to_features m2
    /\ length (to_features m1) = 9%nat
    /\ to_features m1 !! 5%nat
       = Some (if bool_decide (h = "unhealthy") then 1%Q else 0%Q).
Proof.
  intros. subst m1 m2. split; [reflexivity|]. split; [reflexivity|].
  cbn. by rewrite eqb_unhealthy.
Qed.

(** C10.  A snapshot whose [health_status] is anything but ['unhealthy']
    (['down'], ['unknown'], ...) gets health feature 0 and health bucket
    ['healthy']: its feature vector and its state key are those of the same
    snapshot reported ['healthy']. *)
Theorem not_unhealthy_reads_as_healthy (m : ServiceMetrics) :
  health_status m <> "unhealthy" ->
  to_features m !! 5%nat = Some 0%Q
  /\ health_bucket (health_status m) = "healthy"
  /\ to_features m = to_features (with_health_status "healthy" m)
  /\ get_state m = get_state (with_health_status "healthy" m).
Proof.
  intros Hne.
  assert (String.eqb (health_status m) "unhealthy" = false) as Heq
    by (by apply String.eqb_neq).
  unfold get_state, health_bucket, to_features. cbn. rewrite Heq. done.
Qed.

Lemma not_unhealthy_reads_as_healthy_witness :
  let down := sample_metric "redis" 0 "down" in
  let unknown := sample_metric "redis" 0 "unknown" in
  (to_features down !! 5%nat = Some 0%Q
   /\ get_state down = get_state (with_health_status "healthy" down))
  /\ (to_features unknown !! 5%nat = Some 0%Q
      /\ get_state unknown = "redis_medium_low_healthy").
Proof.
  intros down unknown. split.
  - destruct (not_unhealthy_reads_as_healthy down) as (H1 & _ & _ & H4);
      [discriminate | by split].
  - destruct (not_unhealthy_reads_as_healthy unknown) as (H1 & _ & _ & H4);
      [discriminate | split; [exact H1 | by rewrite H4]].
Defined.

(** ** The reward model *)

Lemma Qmax_0_gain (x y : Q) : (y < x)%Q -> (Qmax 0 (x - y) == x - y)%Q.
Proof. intros H. apply Q.max_r. lra. Qed.

Lemma Qmax_0_no_gain (x y : Q) : (x <= y)%Q -> (Qmax 0 (x - y) == 0)%Q.
Proof. intros H. apply Q.max_l. lra. Qed.

(** C1.  [calculate_reward] is the specified reward: -10 on failure, 0 on
    success without a second snapshot, and otherwise the weighted
    improvements, the two flat penalties and the health bonus. *)
Theorem calculate_reward_meets_spec :
  forall (before : ServiceMetrics) (after : option ServiceMetrics) (success : bool),
    calculate_reward before after false = (- (10))%Q
    /\ calculate_reward before None true = 0%Q
    /\ (calculate_reward before after success == reward_spec before after success)%Q.
Proof.
  intros before after success. split; [reflexivity|]. split; [reflexivity|].
  destruct success; [|reflexivity].
  destruct after as [after|]; [|reflexivity].
  unfold calculate_reward, reward_spec, indicator. cbn [negb].
  destruct (String.eqb (health_status after) "healthy");
    float_cases;
    repeat match goal with
    | |- context [Qmax 0 (?x - ?y)] =>
      first [ rewrite (Qmax_0_gain x y) by assumption
            | rewrite (Qmax_0_no_gain x y) by assumption ]
    end; lra.
Qed.

(** ** The policy: Q-value update and greedy selection *)

(** [max] returns the first item whose key is maximal: every item's key is
    at most the result's, and strictly below it for earlier items. *)
Lemma max_from_first_max {A} (key : A -> Q) (l : list A) :
  forall best,
    exists i,
      (best :: l) !! i = Some (max_from key best l)
      /\ forall j x, (best :: l) !! j = Some x ->
           (key x <= key (max_from key best l))%Q
           /\ ((j < i)%nat -> (key x < key (max_from key best l))%Q).
Proof.
  induction l as [|y l IH]; intros best.
  - exists 0%nat. split; [done|]. intros [|j] x Hx; [|done].
    injection Hx as <-. split; [apply Qle_refl | lia].
  - cbn [max_from].
    destruct (IH (if PyFloat.gtb (key y) (key best) then y else best))
      as (i' & Hi' & Hmax).
    set (r := max_from key _ l) in *.
    destruct (PyFloat.gtb (key y) (key best)) eqn:Hgt;
      [apply gtb_gt in Hgt | apply gtb_le in Hgt].
    + (* [y] replaces [best]: the result sits one place further on *)
      exists (S i'). split; [exact Hi'|].
      intros [|j] x Hx.
      * injection Hx as <-.
        destruct (Hmax 0%nat y eq_refl) as [Hle _].
        split; [lra | intros _; lra].
      * destruct (Hmax j x Hx) as [Hle Hlt].
        split; [exact Hle | intros Hj; apply Hlt; lia].
    + (* [best] stays *)
      destruct i' as [|i'].
      * exists 0%nat. split; [exact Hi'|].
        injection Hi' as Hr.
        intros [|[|j]] x Hx.
        -- injection Hx as <-. rewrite Hr. split; [apply Qle_refl | lia].
        -- injection Hx as <-. rewrite <- Hr. split; [exact Hgt | lia].
        -- destruct (Hmax (S j) x Hx) as [Hle _]. split; [exact Hle | lia].
      * exists (S (S i')). split; [exact Hi'|].
        destruct (Hmax 0%nat best eq_refl) as [_ Hbest].
        specialize (Hbest ltac:(lia)).
        intros [|[|j]] x Hx.
        -- injection Hx as <-. split; [lra | intros _; exact Hbest].
        -- injection Hx as <-. split; [lra | intros _; lra].
        -- destruct (Hmax (S j) x Hx) as [Hle Hlt].
           split; [exact Hle | intros Hj; apply Hlt; lia].
Qed.

Section Policy.
Context {sk : Sklearn} {Failure : Type}.
Implicit Types a : agent sk Failure.


(** C3.  With [epsilon = 0] the exploration branch is never taken
    ([np.random.random()] is never negative) and [select_action] returns
    the first action, in the order of the action list, whose Q-value for
    the state is maximal, an unseen pair counting as 0; the random draws
    do not influence the result. *)
Theorem select_action_greedy a (state : string) (u : Q) (pick : nat) :
  (epsilon a == 0)%Q -> (0 <= u)%Q ->
  let value := fun action => default 0%Q (q_table a !! (state, action)) in
  exists (i : nat) (best : string),
    select_action a u pick state = Some best
    /\ length actions = 7%nat
    /\ actions !! i = Some best
    /\ (forall j action, actions !! j = Some action ->
          (value action <= value best)%Q
          /\ ((j < i)%nat -> (value action < value best)%Q))
    /\ (forall u' pick', (0 <= u')%Q ->
          select_action a u' pick' state = Some best).
Proof.
  intros Heps Hu value.
  assert (forall u', (0 <= u')%Q -> PyFloat.ltb u' (epsilon a) = false) as Hnever.
  { intros u' Hu'. apply ltb_ge. lra. }
  set (item := fun action => (action, q_get (q_table a) state action)).
  destruct (max_from_first_max snd (item <$> tail actions) (item "restart"))
    as (i & Hi & Hmax).
  set (r := max_from snd (item "restart") (item <$> tail actions)) in *.
  change (item "restart" :: (item <$> tail actions)) with (item <$> actions) in *.
  rewrite list_lookup_fmap in Hi.
  destruct (actions !! i) as [best|] eqn:Hbest; [|done].
  injection Hi as Hr.
  assert (forall u' pick', (0 <= u')%Q ->
            select_action a u' pick' state = Some best) as Hsel.
  { intros u' pick' Hu'. unfold select_action. rewrite (Hnever u' Hu').
    change (py_max snd (q_values a state)) with (Some r).
    rewrite <- Hr. reflexivity. }
  exists i, best. split; [by apply Hsel|]. split; [reflexivity|].
  split; [exact Hbest|]. split; [|exact Hsel].
  intros j action Hj.
  destruct (Hmax j (item action)) as [Hle Hlt].
  { by rewrite list_lookup_fmap, Hj. }
  rewrite <- Hr in Hle, Hlt. split; [exact Hle | exact Hlt].
Qed.

End Policy.


Lemma select_action_greedy_witness :
  let a := update_q_value "s" "rollback" 5 (update_q_value "s" "scale_up" 5
             greedy_agent) in
  select_action a (1 # 2) 6 "s" = Some "scale_up"
  /\ select_action a 0 0 "t" = Some "restart".
Proof.
  intros a. split.
  - destruct (select_action_greedy a "s" (1 # 2) 6) as (i & best & Hsel & _);
      [reflexivity | discriminate |].
    rewrite Hsel. vm_compute in Hsel. exact (eq_sym Hsel).
  - vm_compute. reflexivity.
Defined.

(** ** The metrics window *)

Lemma deque_append_below {A} (N : nat) (d : list A) (x : A) :
  (length d < N)%nat -> Deque.append N d x = d ++ [x].
Proof.
  intros H. unfold Deque.append.
  destruct (Nat.ltb_spec N (length (d ++ [x]))) as [Hover|_]; [|done].
  rewrite length_app in Hover. cbn in Hover. lia.
Qed.

Lemma deque_append_full {A} (N : nat) (oldest : A) (d : list A) (x : A) :
  length (oldest :: d) = N -> Deque.append N (oldest :: d) x = d ++ [x].
Proof.
  intros H. unfold Deque.append.
  destruct (Nat.ltb_spec N (length ((oldest :: d) ++ [x]))) as [_|Hfits]; [done|].
  rewrite length_app, H in Hfits. cbn in Hfits. lia.
Qed.

Lemma deque_append_drop {A} (N : nat) (d : list A) (x : A) :
  (length d <= N)%nat ->
  Deque.append N d x = drop (length d + 1 - N) (d ++ [x]).
Proof.
  intros H. destruct (Nat.lt_ge_cases (length d) N) as [Hlt|Hge].
  - rewrite deque_append_below by done.
    by replace (length d + 1 - N)%nat with 0%nat by lia.
  - replace (length d + 1 - N)%nat with 1%nat by lia.
    destruct d as [|oldest d].
    + cbn in *. by replace N with 0%nat by lia.
    + rewrite deque_append_full by lia. done.
Qed.

Lemma deque_extend_drop {A} (N : nat) (xs : list A) :
  forall d : list A,
    (length d <= N)%nat ->
    Deque.extend N d xs = drop (length (d ++ xs) - N) (d ++ xs).
Proof.
  induction xs as [|x xs IH]; intros d Hd.
  - cbn. rewrite app_nil_r. by replace (length d - N)%nat with 0%nat by lia.
  - unfold Deque.extend in *. cbn [foldl].
    rewrite deque_append_drop by done.
    set (k := (length d + 1 - N)%nat).
    assert (length (drop k (d ++ [x])) = (length d + 1 - k)%nat) as Hlen.
    { rewrite length_drop, length_app. done. }
    rewrite IH by (rewrite Hlen; lia).
    rewrite <- drop_app_le by (rewrite length_app; cbn; lia).
    rewrite <- (assoc_L (++) d [x] xs). cbn [app].
    rewrite drop_drop. f_equal.
    rewrite length_drop, !length_app. cbn. lia.
Qed.

(** C7.  The metrics window is a FIFO of bounded length.  For a bound [N]:
    an append below the bound keeps everything; an append at the bound
    drops exactly the oldest element; after any run of appends to an empty
    store the content is the last [N] appended, oldest first; after [N+1]
    appends the first one is gone and the [N] later ones remain.  The
    agent's window is such a store with bound 10000. *)
Theorem metrics_store_fifo {A sk Failure} (N : nat) :
  (forall (d : list A) x, (length d < N)%nat -> Deque.append N d x = d ++ [x])
  /\ (forall (oldest : A) d x,
        length (oldest :: d) = N -> Deque.append N (oldest :: d) x = d ++ [x])
  /\ (forall xs : list A,
        Deque.extend N [] xs = drop (length xs - N) xs
        /\ length (Deque.extend N [] xs) = Nat.min N (length xs))
  /\ (forall (first : A) xs,
        length xs = N ->
        Deque.extend N [] (first :: xs) = xs
        /\ (first ∉ xs -> first ∉ Deque.extend N [] (first :: xs)))
  /\ (forall (a : agent sk Failure) metrics,
        (length (metrics_history a) <= metrics_maxlen)%nat ->
        let stored := metrics_history a ++ metrics in
        metrics_history (store_metrics metrics a)
        = drop (length stored - metrics_maxlen) stored).
Proof.
  split; [apply deque_append_below|].
  split; [apply deque_append_full|].
  split; [|split].
  - intros xs. rewrite (deque_extend_drop N xs []) by (cbn; lia).
    split; [done|]. rewrite length_drop. cbn. lia.
  - intros first xs Hlen.
    rewrite (deque_extend_drop N (first :: xs) []) by (cbn; lia).
    cbn [app length]. by replace (S (length xs) - N)%nat with 1%nat by lia.
  - intros a metrics Hbound stored.
    apply (deque_extend_drop metrics_maxlen metrics (metrics_history a) Hbound).
Qed.

Lemma metrics_store_fifo_witness :
  Deque.append 3 [1%Z; 2%Z] 3%Z = [1%Z; 2%Z; 3%Z]
  /\ Deque.append 3 [1%Z; 2%Z; 3%Z] 4%Z = [2%Z; 3%Z; 4%Z]
  /\ Deque.extend 3 [] [1%Z; 2%Z; 3%Z; 4%Z] = [2%Z; 3%Z; 4%Z]
  /\ (1%Z ∉ Deque.extend 3 [] [1%Z; 2%Z; 3%Z; 4%Z])
  /\ metrics_history (store_metrics [sample_metric "redis" 1 "down"] fresh_agent)
     = [sample_metric "redis" 1 "down"].
Proof.
  destruct (@metrics_store_fifo Z (sample_sklearn true true true) string 3)
    as (Hbelow & Hfull & _ & Hfirst & Hagent).
  split; [apply Hbelow; cbn; lia|].
  split; [apply Hfull; reflexivity|].
  destruct (Hfirst 1%Z [2%Z; 3%Z; 4%Z] eq_refl) as [Hstore Hgone].
  split; [exact Hstore|].
  split; [apply Hgone; rewrite !elem_of_cons, elem_of_nil; lia|].
  apply (Hagent fresh_agent). cbn. lia.
Defined.

(** ** Training data *)

Lemma degraded_after_true (metric m : ServiceMetrics) :
  degraded_after metric m = true
  <-> service m = service metric
      /\ (health_status m = "unhealthy"
          \/ (restart_count metric < restart_count m)%Z).
Proof.
  unfold degraded_after.
  rewrite andb_true_iff, orb_true_iff, !String.eqb_eq, Z.ltb_lt. done.
Qed.

Lemma training_window_take (history : list ServiceMetrics) :
  training_window history = take (length history - 10) history.
Proof. exact (slice_drop_last 10 history eq_refl). Qed.

(** The label of the snapshot at position [i] looks at positions
    [i+1 .. i+5] of the whole window. *)
Lemma label_one_iff (history : list ServiceMetrics) (i : nat) (metric : ServiceMetrics) :
  label history i metric = 1%Z
  <-> exists (j : nat) (m : ServiceMetrics),
        (1 <= j <= 5)%nat
        /\ history !! (i + j)%nat = Some m
        /\ service m = service metric
        /\ (health_status m = "unhealthy"
            \/ (restart_count metric < restart_count m)%Z).
Proof.
  unfold label.
  replace (Z.of_nat i + 6)%Z with (Z.of_nat i + 1 + 5)%Z by lia.
  rewrite slice_window by lia.
  change (Z.to_nat 5) with 5%nat.
  destruct (existsb _ _) eqn:Hex.
  - split; [intros _ | done].
    apply existsb_exists in Hex as (m & Hin & Hdeg).
    apply list_elem_of_In, list_elem_of_lookup in Hin as (k & Hk).
    apply lookup_take_Some in Hk as (Hk & Hlt).
    rewrite lookup_drop in Hk.
    exists (S k), m. apply degraded_after_true in Hdeg.
    split; [lia|]. split; [|exact Hdeg].
    by replace (i + S k)%nat with (S i + k)%nat by lia.
  - split; [done|]. intros (j & m & Hj & Hm & Hdeg).
    apply degraded_after_true in Hdeg.
    assert (existsb (degraded_after metric) (take 5 (drop (S i) history)) = true)
      as Hyes; [|congruence].
    apply existsb_exists. exists m. split; [|exact Hdeg].
    apply list_elem_of_In, list_elem_of_lookup. exists (j - 1)%nat.
    apply lookup_take_Some. split; [|lia].
    rewrite lookup_drop. by replace (S i + (j - 1))%nat with (i + j)%nat by lia.
Qed.

Lemma label_zero_or_one (history : list ServiceMetrics) (i : nat) (metric : ServiceMetrics) :
  label history i metric = 1%Z \/ label history i metric = 0%Z.
Proof. unfold label. destruct (existsb _ _); auto. Qed.

Section Training.
Context {sk : Sklearn} {Failure : Type}.
Implicit Types a : agent sk Failure.

(** What a call of [train_models] leaves behind, by how far it gets. *)
Lemma train_models_cases a :
  exec train_models a =
  let history := metrics_history a in
  if (length history <? 100)%nat then a
  else
    let a0 := set_scaler (Some StandardScaler) a in
    match fit_transform StandardScaler (training_X history) with
    | None => a0
    | Some (sc, X_scaled) =>
      let a1 := set_failure_predictor (Some RandomForestClassifier)
                  (set_scaler (Some sc) a0) in
      match classifier_fit RandomForestClassifier X_scaled (training_y history) with
      | None => a1
      | Some m =>
        let a2 := set_anomaly_detector (Some IsolationForest)
                    (set_failure_predictor (Some m) a1) in
        match detector_fit IsolationForest X_scaled with
        | None => a2
        | Some d => set_anomaly_detector (Some d) a2
        end
      end
    end.
Proof.
  cbv beta iota zeta delta
    [exec train_models try_except scaler_fit_transform failure_predictor_fit
     anomaly_detector_fit mbind mret Py_bind Py_ret gets modify call raise
     fst snd scaler failure_predictor anomaly_detector set_scaler
     set_failure_predictor set_anomaly_detector].
  destruct (length (metrics_history a) <? 100)%nat; [reflexivity|].
  destruct (fit_transform _ _) as [[sc X_scaled]|]; [|reflexivity].
  cbv beta iota.
  destruct (classifier_fit _ _ _) as [m|]; [|reflexivity].
  cbv beta iota.
  destruct (detector_fit _ _) as [d|]; reflexivity.
Qed.


End Training.



(** ** The model group: training, loading, saving *)

Section ModelGroup.
Context {sk : Sklearn} {Failure : Type}.
Implicit Types (a : agent sk Failure) (d : disk sk Failure)
  (w : world sk Failure).

Lemma train_models_small a :
  (length (metrics_history a) < 100)%nat -> exec train_models a = a.
Proof.
  intros Hsmall. rewrite train_models_cases. cbv zeta.
  destruct (Nat.ltb_spec (length (metrics_history a)) 100); [done | lia].
Qed.

Lemma train_models_publishes a :
  (100 <= length (metrics_history a))%nat ->
  fits_succeed (metrics_history a) = true ->
  group_published (exec train_models a) = true.
Proof.
  intros Hlong Hfits. rewrite train_models_cases. cbv zeta.
  destruct (Nat.ltb_spec (length (metrics_history a)) 100); [lia|].
  unfold fits_succeed in Hfits.
  destruct (fit_transform _ _) as [[sc X_scaled]|]; [|done].
  destruct (classifier_fit _ _ _) as [m|]; [|done].
  destruct (detector_fit _ _) as [dt|]; [reflexivity | done].
Qed.

Lemma load_models_whole a d :
  negb (makedirs_ok d) || artifacts_whole d = true ->
  group_atomic a = true ->
  group_atomic (exec (load_models d) a) = true.
Proof.
  intros Hwhole Ha.
  destruct d as [mk wr p an sc q hj].
  cbv beta iota zeta delta
    [exec load_models load_if_exists try_except mbind mret Py_bind Py_ret
     modify call raise fst snd makedirs_ok predictor_pkl anomaly_pkl
     scaler_pkl qtable_pkl].
  destruct mk; [|exact Ha].
  unfold artifacts_whole, loadable, missing in Hwhole. cbn in Hwhole.
  destruct p as [[p|]|], an as [[an|]|], sc as [[sc|]|];
    try discriminate Hwhole;
    destruct q as [[q|]|]; (reflexivity || exact Ha).
Qed.

(** C5 (as the code has it).  The three models are assigned one field at
    a time.  An operation that starts with the group whole (all three set
    or all three unset) leaves it whole when it goes through without
    stopping part-way: saving, always, for it assigns no field; training,
    when it returns early on fewer than 100 snapshots or all three fits
    succeed; loading, when the model directory cannot be made, or the
    three artifacts are all present and readable or all absent. *)
Theorem model_group_whole_after_whole_run (op : operation) w :
  group_atomic (agent_of w) = true ->
  runs_whole op w = true ->
  group_atomic (agent_of (step op w)) = true.
Proof.
  intros Ha Hrun. destruct op; cbn [step agent_of].
  - cbn [runs_whole] in Hrun. apply orb_true_iff in Hrun as [Hsmall|Hfits].
    + apply Nat.ltb_lt in Hsmall. by rewrite train_models_small.
    + destruct (Nat.lt_ge_cases (length (metrics_history (agent_of w))) 100)
        as [Hsmall|Hlong].
      * by rewrite train_models_small.
      * unfold group_atomic. by rewrite train_models_publishes.
  - by apply load_models_whole.
  - exact Ha.
Qed.

(** C6 (as the code has it).  With fewer than 100 stored snapshots
    [train_models] changes nothing.  With at least 100 it always leaves a
    scaler set, and leaves all three models set when the three fits
    succeed.  When a fit raises, nothing is rolled back: the fields assigned
    before it keep their new values, the failing fit's own field holds the
    new unfitted estimator, and the fields not yet assigned keep their
    previous values. *)
Theorem train_models_outcomes a :
  let history := metrics_history a in
  let a' := exec train_models a in
  ((length history < 100)%nat -> a' = a)
  /\ ((100 <= length history)%nat -> is_set (scaler a') = true)
  /\ ((100 <= length history)%nat -> fits_succeed history = true ->
      group_published a' = true)
  /\ ((100 <= length history)%nat ->
      fit_transform StandardScaler (training_X history) = None ->
      scaler a' = Some StandardScaler
      /\ failure_predictor a' = failure_predictor a
      /\ anomaly_detector a' = anomaly_detector a)
  /\ (forall sc X_scaled,
        (100 <= length history)%nat ->
        fit_transform StandardScaler (training_X history) = Some (sc, X_scaled) ->
        classifier_fit RandomForestClassifier X_scaled (training_y history) = None ->
        scaler a' = Some sc
        /\ failure_predictor a' = Some RandomForestClassifier
        /\ anomaly_detector a' = anomaly_detector a)
  /\ (forall sc X_scaled m,
        (100 <= length history)%nat ->
        fit_transform StandardScaler (training_X history) = Some (sc, X_scaled) ->
        classifier_fit RandomForestClassifier X_scaled (training_y history) = Some m ->
        detector_fit IsolationForest X_scaled = None ->
        scaler a' = Some sc
        /\ failure_predictor a' = Some m
        /\ anomaly_detector a' = Some IsolationForest).
Proof.
  intros history a'. subst history a'.
  split; [apply train_models_small|].
  split; [|split; [apply train_models_publishes|]].
  - intros Hlong. rewrite train_models_cases. cbv zeta.
    destruct (Nat.ltb_spec (length (metrics_history a)) 100); [lia|].
    destruct (fit_transform _ _) as [[sc X_scaled]|]; [|reflexivity].
    destruct (classifier_fit _ _ _) as [m|]; [|reflexivity].
    destruct (detector_fit _ _) as [dt|]; reflexivity.
  - split; [|split].
    + intros Hlong Hraise. rewrite train_models_cases. cbv zeta.
      destruct (Nat.ltb_spec (length (metrics_history a)) 100); [lia|].
      rewrite Hraise. done.
    + intros sc X_scaled Hlong Hscaler Hraise.
      rewrite train_models_cases. cbv zeta.
      destruct (Nat.ltb_spec (length (metrics_history a)) 100); [lia|].
      rewrite Hscaler, Hraise. done.
    + intros sc X_scaled m Hlong Hscaler Hfit Hraise.
      rewrite train_models_cases. cbv zeta.
      destruct (Nat.ltb_spec (length (metrics_history a)) 100); [lia|].
      rewrite Hscaler, Hfit, Hraise. done.
Qed.


End ModelGroup.

Lemma model_group_whole_after_whole_run_witness :
  let w : world (sample_sklearn true true true) string :=
    {| agent_of := agent_with_window quiet_window; disk_of := empty_disk |} in
  group_published (agent_of (step Train w)) = true
  /\ group_atomic (agent_of (step Load (step Save (step Train w)))) = true.
Proof.
  intros w.
  assert (group_atomic (agent_of (step Train w)) = true) as Htrained.
  { apply model_group_whole_after_whole_run; reflexivity. }
  split; [reflexivity|].
  apply model_group_whole_after_whole_run; [|reflexivity].
  apply model_group_whole_after_whole_run; [exact Htrained | reflexivity].
Defined.

(** C5, the claim as stated fails: with only the classifier's artifact on
    disk, loading into a fresh agent sets the classifier and leaves
    detector and scaler unset. *)
Lemma load_models_splits_group :
  let w : world (sample_sklearn true true true) string :=
    {| agent_of := fresh_agent; disk_of := classifier_only_disk |} in
  group_atomic (agent_of w) = true
  /\ is_set (failure_predictor (agent_of (step Load w))) = true
  /\ is_set (anomaly_detector (agent_of (step Load w))) = false
  /\ is_set (scaler (agent_of (step Load w))) = false
  /\ group_atomic (agent_of (step Load w)) = false.
Proof. intros w. repeat split. Qed.

Lemma train_models_outcomes_witness :
  let few : agent (sample_sklearn true true true) string :=
    agent_with_window (take 99 quiet_window) in
  let enough : agent (sample_sklearn true true true) string :=
    agent_with_window quiet_window in
  let no_scaler : agent (sample_sklearn false true true) string :=
    agent_with_window quiet_window in
  let no_classifier : agent (sample_sklearn true false true) string :=
    agent_with_window quiet_window in
  let no_detector : agent (sample_sklearn true true false) string :=
    agent_with_window quiet_window in
  exec train_models few = few
  /\ is_set (scaler (exec train_models no_detector)) = true
  /\ group_published (exec train_models enough) = true
  /\ scaler (exec train_models no_scaler) = Some None
  /\ (failure_predictor (exec train_models no_classifier) = Some None
      /\ anomaly_detector (exec train_models no_classifier) = None)
  /\ anomaly_detector (exec train_models no_detector) = Some None.
Proof.
  intros few enough no_scaler no_classifier no_detector.
  split; [|split; [|split; [|split; [|split]]]].
  - destruct (train_models_outcomes few) as (Hfew & _).
    apply Hfew. cbn. lia.
  - destruct (train_models_outcomes no_detector) as (_ & Hscaler & _).
    apply Hscaler. cbn. lia.
  - destruct (train_models_outcomes enough) as (_ & _ & Hall & _).
    apply Hall; [cbn; lia | reflexivity].
  - destruct (train_models_outcomes no_scaler) as (_ & _ & _ & Hraise & _).
    destruct Hraise as (Hscaler & _); [cbn; lia | reflexivity | exact Hscaler].
  - destruct (train_models_outcomes no_classifier)
      as (_ & _ & _ & _ & Hraise & _).
    destruct (Hraise (Some (training_X quiet_window)) (training_X quiet_window))
      as (_ & Hclassifier & Hdetector);
      [cbn; lia | reflexivity | reflexivity | by split].
  - destruct (train_models_outcomes no_detector)
      as (_ & _ & _ & _ & _ & Hraise).
    destruct (Hraise (Some (training_X quiet_window)) (training_X quiet_window)
                (Some (training_X quiet_window, training_y quiet_window)))
      as (_ & _ & Hdetector);
      [cbn; lia | reflexivity | reflexivity | reflexivity | exact Hdetector].
Defined.

(** C6, the claim as stated fails: when the scaler's fit raises on a
    window of 100 snapshots, an agent without models is left with
    classifier and detector unset, and an agent with a published group is
    left with its scaler replaced by an unfitted one. *)
Lemma failed_training_replaces_scaler :
  let bare : agent (sample_sklearn false true true) string :=
    agent_with_window quiet_window in
  let published := published_agent false true true in
  length (metrics_history bare) = 100%nat
  /\ group_published (exec train_models bare) = false
  /\ failure_predictor (exec train_models bare) = None
  /\ group_published published = true
  /\ scaler published = Some (Some [])
  /\ scaler (exec train_models published) = Some None.
Proof. intros bare published. repeat split. Qed.


(** The label looks at the five entries that follow in the window, whatever
    their service: a snapshot of the same service that comes seven entries
    later, as it does when seven services report per tick, is not seen. *)
Example label_looks_five_entries_ahead :
  let others := (fun svc => sample_metric svc 0 "healthy")
                <$> ["dashboard"; "postgres"; "grafana"; "prometheus";
                     "celery-worker"; "threat-detection-app"] in
  let history := sample_metric "redis" 0 "healthy" :: others
                 ++ [sample_metric "redis" 0 "unhealthy"] in
  history !! 7%nat = Some (sample_metric "redis" 0 "unhealthy")
  /\ label history 0 (sample_metric "redis" 0 "healthy") = 0%Z.
Proof. split; reflexivity. Qed.

Example calculate_reward_example :
  let before := sample_metric "redis" 0 "unhealthy" in
  let after :=
    {| timestamp := 30; service := "redis";
       cpu_usage := 1 # 4; memory_usage := 1 # 2; disk_usage := 1 # 2;
       network_errors := 0; restart_count := 1; health_status := "healthy";
       response_time := 1 # 5; error_rate := 0; request_rate := 10 |} in
  (calculate_reward before (Some after) true == 13 # 4)%Q.
Proof. reflexivity. Qed.

(** * Further properties of the agent *)

(** ** Time-to-failure estimate *)

(** X1.  The estimate lies between one and ten minutes, and CPU load decides
    first: above 0.9 it is 60 s, above 0.8 it is 300 s whatever memory and
    error rate are.  Memory above 0.9 gives 120 s only when CPU is at most
    0.8, so of two snapshots with the same critical memory the one with
    the higher CPU load (between 0.8 and 0.9) gets the longer estimate. *)
Theorem estimate_time_to_failure_bands (m m' : ServiceMetrics) :
  let t := estimate_time_to_failure m in
  (60 <= t <= 600)%Z
  /\ (t = 60%Z <-> (9 # 10 < cpu_usage m)%Q)
  /\ (t = 300%Z <-> (8 # 10 < cpu_usage m <= 9 # 10)%Q)
  /\ (t = 600%Z <-> (cpu_usage m <= 8 # 10)%Q /\ (memory_usage m <= 9 # 10)%Q
                    /\ (error_rate m <= 5 # 10)%Q)
  /\ ((cpu_usage m <= 8 # 10)%Q -> (9 # 10 < memory_usage m)%Q ->
      (8 # 10 < cpu_usage m' <= 9 # 10)%Q ->
      t = 120%Z /\ estimate_time_to_failure m' = 300%Z).
Proof.
  intros t. subst t. unfold estimate_time_to_failure.
  float_cases; repeat split; intros;
    repeat match goal with
    | H : _ /\ _ |- _ => destruct H
    end;
    solve [ lia | lra | exfalso; lia | exfalso; lra ].
Qed.

Lemma estimate_time_to_failure_bands_witness :
  let busy_memory :=
    {| timestamp := 0; service := "redis"; cpu_usage := 1 # 2;
       memory_usage := 95 # 100; disk_usage := 0; network_errors := 0;
       restart_count := 0; health_status := "healthy"; response_time := 0;
       error_rate := 0; request_rate := 0 |} in
  let busy_both :=
    {| timestamp := 0; service := "redis"; cpu_usage := 85 # 100;
       memory_usage := 95 # 100; disk_usage := 0; network_errors := 0;
       restart_count := 0; health_status := "healthy"; response_time := 0;
       error_rate := 0; request_rate := 0 |} in
  estimate_time_to_failure busy_memory = 120%Z
  /\ estimate_time_to_failure busy_both = 300%Z.
Proof.
  intros busy_memory busy_both.
  destruct (estimate_time_to_failure_bands busy_memory busy_both)
    as (_ & _ & _ & _ & Hlonger).
  apply Hlonger; cbn; lra.
Defined.

(** ** Rewards *)

(** X2.  A successful action is never scored below -6, whatever the two
    snapshots are, so a failed action (-10) always scores strictly below
    any successful one. *)
Theorem failed_action_scores_lowest
    (before before' : ServiceMetrics) (after after' : option ServiceMetrics) :
  (- (6) <= calculate_reward before after true)%Q
  /\ (calculate_reward before' after' false < calculate_reward before after true)%Q.
Proof.
  assert (- (6) <= calculate_reward before after true)%Q as Hfloor.
  { destruct after as [after|]; [|cbn; lra].
    unfold calculate_reward. cbn [negb].
    destruct (String.eqb (health_status after) "healthy"); float_cases; lra. }
  split; [exact Hfloor|].
  change (calculate_reward before' after' false) with (- (10))%Q. lra.
Qed.

(** ** Q-learning over several updates *)

Section Learning.
Context {sk : Sklearn} {Failure : Type}.
Implicit Types a : agent sk Failure.


Lemma q_lookup_update_other a (state action : string) (reward : Q)
    (k : string * string) :
  k <> (state, action) ->
  q_table (update_q_value state action reward a) !! k = q_table a !! k.
Proof. intros Hk. apply (lookup_insert_ne (q_table a)). congruence. Qed.



(** X4.  Updates of two different (state, action) pairs commute: the agent
    is the same whichever observation is processed first. *)
Theorem updates_of_different_pairs_commute a
    (s1 a1 s2 a2 : string) (r1 r2 : Q) :
  (s1, a1) <> (s2, a2) ->
  update_q_value s1 a1 r1 (update_q_value s2 a2 r2 a)
  = update_q_value s2 a2 r2 (update_q_value s1 a1 r1 a).
Proof.
  intros Hne. unfold update_q_value at 1 3. cbn [learning_rate set_q_table].
  unfold q_get at 1 2 3 4.
  rewrite (q_lookup_update_other a s2 a2 r2 (s1, a1)) by done.
  rewrite (q_lookup_update_other a s1 a1 r1 (s2, a2)) by done.
  unfold update_q_value, set_q_table. cbn.
  f_equal. apply (insert_insert_ne (q_table a)). congruence.
Qed.

Lemma select_action_member a (state : string) (u : Q) (pick : nat) :
  exists action : string,
    select_action a u pick state = Some action /\ action ∈ actions.
Proof.
  unfold select_action. destruct (PyFloat.ltb u (epsilon a)).
  - destruct (lookup_lt_is_Some_2 actions (pick `mod` length actions)%nat)
      as [action Haction].
    { apply Nat.mod_upper_bound. cbn. lia. }
    exists action. split; [exact Haction|].
    apply list_elem_of_lookup. eauto.
  - set (item := fun action => (action, q_get (q_table a) state action)).
    destruct (max_from_first_max snd (item <$> tail actions) (item "restart"))
      as (i & Hi & _).
    set (r := max_from snd (item "restart") (item <$> tail actions)) in *.
    change (item "restart" :: (item <$> tail actions)) with (item <$> actions) in Hi.
    rewrite list_lookup_fmap in Hi.
    destruct (actions !! i) as [best|] eqn:Hbest; [|done].
    injection Hi as Hr. exists best. split.
    + change (py_max snd (q_values a state)) with (Some r).
      rewrite <- Hr. reflexivity.
    + apply list_elem_of_lookup. eauto.
Qed.

(** X5.  Whatever the exploration rate, the random draws and the Q-table
    are, [select_action] returns one of the seven actions. *)
Theorem select_action_in_actions a (state : string) (u : Q) (pick : nat) :
  exists action : string,
    select_action a u pick state = Some action /\ action ∈ actions.
Proof. apply select_action_member. Qed.

(** ** The window over many ticks *)

Lemma deque_extend_app {A} (N : nat) (d xs ys : list A) :
  Deque.extend N (Deque.extend N d xs) ys = Deque.extend N d (xs ++ ys).
Proof. unfold Deque.extend. by rewrite foldl_app. Qed.

Lemma store_ticks_extend a (ticks : list (list ServiceMetrics)) :
  metrics_history (store_ticks ticks a)
  = Deque.extend metrics_maxlen (metrics_history a) (concat ticks).
Proof.
  revert a. induction ticks as [|tick ticks IH]; intros a; [done|].
  cbn [store_ticks foldl concat]. fold (store_ticks ticks (store_metrics tick a)).
  rewrite IH. cbn [store_metrics metrics_history set_metrics_history].
  apply deque_extend_app.
Qed.

(** X6.  Tick after tick, the window holds the most recent 10000 of all
    snapshots ever stored, oldest first, and never more than 10000. *)
Theorem window_is_last_10000 a (ticks : list (list ServiceMetrics)) :
  (length (metrics_history a) <= metrics_maxlen)%nat ->
  let stored := metrics_history a ++ concat ticks in
  metrics_history (store_ticks ticks a)
  = drop (length stored - metrics_maxlen) stored
  /\ (length (metrics_history (store_ticks ticks a)) <= metrics_maxlen)%nat.
Proof.
  intros Hbound stored. rewrite store_ticks_extend.
  rewrite deque_extend_drop by done. split; [done|].
  rewrite length_drop. fold stored. lia.
Qed.

End Learning.


Lemma updates_of_different_pairs_commute_witness :
  update_q_value "s" "restart" 5 (update_q_value "s" "rollback" (- (10)) fresh_agent)
  = update_q_value "s" "rollback" (- (10)) (update_q_value "s" "restart" 5 fresh_agent).
Proof. apply updates_of_different_pairs_commute. discriminate. Defined.

Lemma window_is_last_10000_witness :
  metrics_history
    (store_ticks [[sample_metric "redis" 0 "healthy"];
                  [sample_metric "redis" 1 "healthy"]] fresh_agent)
  = [sample_metric "redis" 0 "healthy"; sample_metric "redis" 1 "healthy"].
Proof.
  destruct (window_is_last_10000 fresh_agent
              [[sample_metric "redis" 0 "healthy"];
               [sample_metric "redis" 1 "healthy"]]) as [Hwindow _].
  - cbn. lia.
  - exact Hwindow.
Defined.

(** ** State keys *)

Lemma list_ascii_of_string_append (s t : string) :
  String.list_ascii_of_string (s +:+ t) = String.list_ascii_of_string s ++ String.list_ascii_of_string t.
Proof.
  induction s as [|c s IH]; [done|].
  change (c :: String.list_ascii_of_string (s +:+ t)
          = c :: (String.list_ascii_of_string s ++ String.list_ascii_of_string t)).
  by rewrite IH.
Qed.

Lemma underscores_app (l k : list Ascii.ascii) :
  underscores (l ++ k) = (underscores l + underscores k)%nat.
Proof. unfold underscores. by rewrite filter_app, length_app. Qed.

(** Two texts that both start with an underscore and hold three of them
    can only follow the same prefix. *)
Lemma key_tail_unique (l1 l2 t1 t2 : list Ascii.ascii) :
  head t1 = Some "_"%char -> underscores t1 = 3%nat ->
  head t2 = Some "_"%char -> underscores t2 = 3%nat ->
  l1 ++ t1 = l2 ++ t2 -> l1 = l2 /\ t1 = t2.
Proof.
  intros Hh1 Hu1 Hh2 Hu2 Heq.
  apply app_eq_inv in Heq as [(k & -> & ->)|(k & -> & ->)].
  - destruct k as [|c k]; [by rewrite app_nil_r|].
    exfalso. cbn in Hh2. injection Hh2 as ->.
    change (("_"%char :: k) ++ t1) with ("_"%char :: (k ++ t1)) in Hu2.
    unfold underscores in Hu1, Hu2. rewrite filter_cons_True in Hu2 by done.
    cbn in Hu2. rewrite filter_app, length_app in Hu2. lia.
  - destruct k as [|c k]; [by rewrite app_nil_r|].
    exfalso. cbn in Hh1. injection Hh1 as ->.
    change (("_"%char :: k) ++ t2) with ("_"%char :: (k ++ t2)) in Hu1.
    unfold underscores in Hu1, Hu2. rewrite filter_cons_True in Hu1 by done.
    cbn in Hu1. rewrite filter_app, length_app in Hu1. lia.
Qed.

Lemma get_state_key_tail (m : ServiceMetrics) :
  get_state m = service m +:+ key_tail m.
Proof. reflexivity. Qed.

Lemma key_tail_shape (m : ServiceMetrics) :
  head (String.list_ascii_of_string (key_tail m)) = Some "_"%char
  /\ underscores (String.list_ascii_of_string (key_tail m)) = 3%nat.
Proof.
  unfold key_tail, level, health_bucket.
  destruct (PyFloat.gtb (cpu_usage m) (7 # 10)), (PyFloat.gtb (cpu_usage m) (3 # 10)),
    (PyFloat.gtb (memory_usage m) (7 # 10)), (PyFloat.gtb (memory_usage m) (3 # 10)),
    (String.eqb (health_status m) "unhealthy"); split; reflexivity.
Qed.

Lemma key_tail_components (m1 m2 : ServiceMetrics) :
  key_tail m1 = key_tail m2 ->
  level (cpu_usage m1) = level (cpu_usage m2)
  /\ level (memory_usage m1) = level (memory_usage m2)
  /\ health_bucket (health_status m1) = health_bucket (health_status m2).
Proof.
  unfold key_tail, level, health_bucket.
  destruct (PyFloat.gtb (cpu_usage m1) (7 # 10)), (PyFloat.gtb (cpu_usage m1) (3 # 10)),
    (PyFloat.gtb (memory_usage m1) (7 # 10)), (PyFloat.gtb (memory_usage m1) (3 # 10)),
    (String.eqb (health_status m1) "unhealthy"),
    (PyFloat.gtb (cpu_usage m2) (7 # 10)), (PyFloat.gtb (cpu_usage m2) (3 # 10)),
    (PyFloat.gtb (memory_usage m2) (7 # 10)), (PyFloat.gtb (memory_usage m2) (3 # 10)),
    (String.eqb (health_status m2) "unhealthy");
    intros Heq; first [discriminate Heq | repeat split; reflexivity].
Qed.

(** X7.  Two snapshots get the same state key exactly when they are of the
    same service, in the same CPU band, in the same memory band and in the
    same health bucket: keys of different services or bands never collide,
    whatever characters a service name contains. *)
Theorem get_state_same_key_iff (m1 m2 : ServiceMetrics) :
  get_state m1 = get_state m2
  <-> service m1 = service m2
      /\ level (cpu_usage m1) = level (cpu_usage m2)
      /\ level (memory_usage m1) = level (memory_usage m2)
      /\ health_bucket (health_status m1) = health_bucket (health_status m2).
Proof.
  split.
  - rewrite !get_state_key_tail. intros Heq.
    apply (f_equal String.list_ascii_of_string) in Heq.
    rewrite !list_ascii_of_string_append in Heq.
    destruct (key_tail_shape m1) as [Hh1 Hu1], (key_tail_shape m2) as [Hh2 Hu2].
    destruct (key_tail_unique _ _ _ _ Hh1 Hu1 Hh2 Hu2 Heq) as [Hsvc Htail].
    apply (f_equal String.string_of_list_ascii) in Hsvc, Htail.
    rewrite !String.string_of_list_ascii_of_string in Hsvc, Htail.
    split; [exact Hsvc | by apply key_tail_components].
  - intros (Hsvc & Hcpu & Hmem & Hhealth).
    unfold get_state. cbv zeta. by rewrite Hsvc, Hcpu, Hmem, Hhealth.
Qed.

(** ** Labels on windows where services alternate *)

Lemma services_spread_sound (history : list ServiceMetrics) :
  services_spread history = true ->
  forall (i j : nat) (m m' : ServiceMetrics),
    (i < j <= i + 5)%nat ->
    history !! i = Some m -> history !! j = Some m' ->
    service m' <> service m.
Proof.
  induction history as [|m0 later IH]; intros Hspread i j m m' Hij Hm Hm'.
  - done.
  - cbn [services_spread] in Hspread.
    apply andb_true_iff in Hspread as [Hfirst Hrest].
    destruct i as [|i].
    + injection Hm as <-. destruct j as [|j]; [lia|]. cbn in Hm'.
      intros Hsame. apply negb_true_iff in Hfirst.
      assert (existsb (fun m1 => String.eqb (service m1) (service m0)) (take 5 later)
              = true) as Hyes; [|congruence].
      apply existsb_exists. exists m'. split; [|by apply String.eqb_eq].
      apply list_elem_of_In, list_elem_of_lookup. exists j.
      apply lookup_take_Some. split; [done | lia].
    + destruct j as [|j]; [lia|]. cbn in Hm, Hm'.
      apply (IH Hrest i j); [lia | done | done].
Qed.

Lemma labels_zero_of_spread (history : list ServiceMetrics) :
  (forall (i j : nat) (m m' : ServiceMetrics),
     (i < j <= i + 5)%nat ->
     history !! i = Some m -> history !! j = Some m' ->
     service m' <> service m) ->
  training_y history = replicate (length history - 10) 0%Z.
Proof.
  intros Hspread. apply list_eq. intros i.
  unfold training_y. rewrite list_lookup_imap, training_window_take.
  destruct (Nat.lt_ge_cases i (length history - 10)) as [Hi|Hi].
  - rewrite lookup_take_lt by done. rewrite lookup_replicate_2 by done.
    destruct (lookup_lt_is_Some_2 history i) as [m Hm]; [lia|].
    rewrite Hm. cbn. f_equal.
    destruct (label_zero_or_one history i m) as [Hone|Hzero]; [|done].
    apply label_one_iff in Hone as (j & m' & Hj & Hm' & Hsame & _).
    exfalso. apply (Hspread i (i + j)%nat m m'); [lia | done | done | done].
  - rewrite lookup_take_ge by done. cbn.
    symmetry. by apply lookup_replicate_None.
Qed.

(** X8.  On a window in which no snapshot is followed, within the next five
    entries, by a snapshot of its own service, every training label is 0,
    whatever health and restart counts the snapshots report.  With seven
    services stored per tick in a fixed order, snapshots of one service are
    seven entries apart. *)
Theorem labels_zero_when_services_spread (history : list ServiceMetrics) :
  (forall (i j : nat) (m m' : ServiceMetrics),
     (i < j <= i + 5)%nat ->
     history !! i = Some m -> history !! j = Some m' ->
     service m' <> service m) ->
  training_y history = replicate (length history - 10) 0%Z.
Proof. apply labels_zero_of_spread. Qed.

Lemma labels_zero_when_services_spread_witness :
  let tick := fun health =>
    (fun svc => sample_metric svc 0 health)
    <$> ["threat-detection-app"; "dashboard"; "postgres"; "redis";
         "prometheus"; "grafana"; "celery-worker"] in
  let history := tick "healthy" ++ tick "unhealthy" ++ tick "unhealthy" in
  training_y history = replicate 11 0%Z.
Proof.
  intros tick history.
  apply (labels_zero_when_services_spread history).
  apply services_spread_sound. vm_compute. reflexivity.
Defined.

(** ** Persistence: what a save and a later load give back *)

Section Persistence.
Context {sk : Sklearn} {Failure : Type}.
Implicit Types (a b : agent sk Failure) (d : disk sk Failure).

Lemma save_history_written a (now : Z) d :
  makedirs_ok d = true -> writable d = true ->
  history_json (exec (save_history a now) d) = Some (Some (history_record a now)).
Proof.
  intros Hmk Hwr. destruct d as [mk wr p an sc q hj]. cbn in Hmk, Hwr. subst.
  reflexivity.
Qed.

Lemma history_record_failures a (now : Z) :
  failures (history_record a now)
  = drop (length (failure_history a) - 1000) (failure_history a).
Proof. exact (slice_last 1000 (failure_history a) eq_refl). Qed.

(** X9.  A history saved and loaded again gives the agent the last 1000
    failures of the saving agent, in order, and saving that agent again
    writes the same list.  Without a readable history file [load_history]
    changes nothing. *)
Theorem history_round_trip a b (now now' : Z) d :
  makedirs_ok d = true -> writable d = true ->
  let b' := exec (load_history (exec (save_history a now) d)) b in
  failure_history b'
  = drop (length (failure_history a) - 1000) (failure_history a)
  /\ failures (history_record b' now') = failures (history_record a now)
  /\ (history_json d = None \/ history_json d = Some None ->
      exec (load_history d) b = b).
Proof.
  intros Hmk Hwr b'.
  assert (failure_history b' = failures (history_record a now)) as Hloaded.
  { subst b'. unfold exec at 1. unfold load_history, try_except.
    rewrite save_history_written by done. reflexivity. }
  split; [by rewrite Hloaded, history_record_failures|]. split.
  - rewrite (history_record_failures b'), Hloaded, history_record_failures.
    rewrite length_drop.
    replace (length (failure_history a) - (length (failure_history a) - 1000) - 1000)%nat
      with 0%nat by lia.
    done.
  - intros [Hnone|Hbad]; unfold exec, load_history, try_except;
      [rewrite Hnone | rewrite Hbad]; reflexivity.
Qed.

(** X10.  Models and Q-table saved and loaded again are the ones saved:
    when the directory can be made and written, all three models are set
    and count as true, and the Q-table is not empty, [load_models] after
    [save_models] gives any agent exactly these models and this Q-table,
    whatever was on disk before. *)
Theorem models_round_trip a b d
    (m : Classifier) (dt : Detector) (sc : Scaler) :
  makedirs_ok d = true -> writable d = true ->
  failure_predictor a = Some m -> classifier_bool m = Some true ->
  anomaly_detector a = Some dt -> detector_bool dt = Some true ->
  scaler a = Some sc -> scaler_bool sc = Some true ->
  q_table a <> ∅ ->
  let b' := exec (load_models (exec (save_models a) d)) b in
  failure_predictor b' = Some m
  /\ anomaly_detector b' = Some dt
  /\ scaler b' = Some sc
  /\ q_table b' = q_table a.
Proof.
  intros Hmk Hwr Hfp Hfpb Had Hadb Hsc Hscb Hq b'. subst b'.
  destruct d as [mk wr p an s q hj]. cbn in Hmk, Hwr. subst mk wr.
  destruct a as [fp ad sca qt lr df eps mh fh].
  cbn in Hfp, Had, Hsc, Hq. subst fp ad sca.
  cbv beta iota zeta delta
    [exec save_models load_models load_if_exists dump_if_set dump makedirs when
     try_except mbind mret Py_bind Py_ret gets modify call raise fst snd
     makedirs_ok writable predictor_pkl anomaly_pkl scaler_pkl qtable_pkl
     failure_predictor anomaly_detector scaler q_table
     set_predictor_pkl set_anomaly_pkl set_scaler_pkl set_qtable_pkl].
  rewrite Hfpb, Hadb, Hscb. cbv beta iota.
  rewrite bool_decide_eq_false_2 by done.
  repeat split.
Qed.

(** X11.  [save_models] writes only what the agent holds: the artifact of
    an unset model is left as it was, and so is the Q-table artifact when
    the agent's Q-table is empty; the history file is never touched.  An
    agent with an empty Q-table therefore does not overwrite a table saved
    earlier. *)
Theorem save_models_leaves_unheld_artifacts a d :
  let d' := exec (save_models a) d in
  (failure_predictor a = None -> predictor_pkl d' = predictor_pkl d)
  /\ (anomaly_detector a = None -> anomaly_pkl d' = anomaly_pkl d)
  /\ (scaler a = None -> scaler_pkl d' = scaler_pkl d)
  /\ (q_table a = ∅ -> qtable_pkl d' = qtable_pkl d)
  /\ history_json d' = history_json d.
Proof.
  intros d'. subst d'.
  destruct d as [mk wr p an s q hj].
  destruct a as [fp ad sca qt lr df eps mh fh].
  cbv beta iota zeta delta
    [exec save_models dump_if_set dump makedirs when
     try_except mbind mret Py_bind Py_ret gets modify call raise fst snd
     makedirs_ok writable predictor_pkl anomaly_pkl scaler_pkl qtable_pkl
     history_json failure_predictor anomaly_detector scaler q_table
     set_predictor_pkl set_anomaly_pkl set_scaler_pkl set_qtable_pkl].
  destruct mk; [|repeat split].
  destruct fp as [m|]; [destruct (classifier_bool m) as [[|]|]|];
    destruct wr; cbv beta iota;
    try (repeat split; intros; congruence);
    (destruct ad as [dt|]; [destruct (detector_bool dt) as [[|]|]|]);
    cbv beta iota;
    try (repeat split; intros; congruence);
    (destruct sca as [sc|]; [destruct (scaler_bool sc) as [[|]|]|]);
    cbv beta iota;
    try (repeat split; intros; congruence);
    case_bool_decide; cbv beta iota;
    repeat split; intros; congruence.
Qed.

(** X12.  [load_models] stops at the first artifact it cannot read, in the
    order classifier, detector, scaler, Q-table: what comes later keeps its
    previous value even when its own artifact is readable.  When the
    directory cannot be made or the classifier's artifact is unreadable the
    agent is unchanged. *)
Theorem load_models_stops_at_unreadable a d :
  let a' := exec (load_models d) a in
  (makedirs_ok d = false \/ predictor_pkl d = Some None -> a' = a)
  /\ (anomaly_pkl d = Some None ->
      anomaly_detector a' = anomaly_detector a
      /\ scaler a' = scaler a /\ q_table a' = q_table a)
  /\ (scaler_pkl d = Some None ->
      scaler a' = scaler a /\ q_table a' = q_table a).
Proof.
  intros a'. subst a'.
  destruct d as [mk wr p an s q hj].
  cbv beta iota zeta delta
    [exec load_models load_if_exists try_except mbind mret Py_bind Py_ret
     modify call raise fst snd makedirs_ok predictor_pkl anomaly_pkl
     scaler_pkl qtable_pkl].
  split; [|split].
  - intros [-> | ->]; [reflexivity|]. by destruct mk.
  - intros ->. destruct mk; [|done].
    destruct p as [[m|]|]; done.
  - intros ->. destruct mk; [|done].
    destruct p as [[m|]|]; [|done|]; destruct an as [[dt|]|]; done.
Qed.

(** X13.  Training touches the three models only: Q-table, window, failure
    history and the learning parameters are the same after [train_models],
    whether it returns early, succeeds or fails part-way. *)
Theorem train_models_keeps_learning_state a :
  let a' := exec train_models a in
  q_table a' = q_table a
  /\ metrics_history a' = metrics_history a
  /\ failure_history a' = failure_history a
  /\ learning_rate a' = learning_rate a
  /\ discount_factor a' = discount_factor a
  /\ epsilon a' = epsilon a.
Proof.
  intros a'. subst a'. rewrite train_models_cases. cbv zeta.
  destruct (length (metrics_history a) <? 100)%nat; [done|].
  destruct (fit_transform _ _) as [[sc X_scaled]|]; [|done].
  destruct (classifier_fit _ _ _) as [m|]; [|done].
  destruct (detector_fit _ _) as [dt|]; done.
Qed.

End Persistence.

Lemma history_round_trip_witness :
  let a := set_failure_history (replicate 1001 "oom" ++ ["disk"]) fresh_agent in
  length (failure_history
            (exec (load_history (exec (save_history a 7) empty_disk)) fresh_agent))
  = 1000%nat.
Proof.
  intros a.
  destruct (history_round_trip a fresh_agent 7 8 empty_disk eq_refl eq_refl)
    as (Hloaded & _ & _).
  rewrite Hloaded. reflexivity.
Defined.

Lemma models_round_trip_witness :
  let a := update_q_value "s" "restart" 5 (published_agent true true true) in
  let b := exec (load_models (exec (save_models a) empty_disk)) fresh_agent in
  group_published b = true /\ q_table b = q_table a.
Proof.
  intros a b.
  destruct (models_round_trip a fresh_agent empty_disk
              (Some ([], [])) (Some []) (Some []))
    as (Hfp & Had & Hsc & Hq);
    try reflexivity.
  - apply insert_non_empty.
  - split; [|exact Hq]. unfold group_published. subst b.
    by rewrite Hfp, Had, Hsc.
Defined.

Lemma save_models_leaves_unheld_artifacts_witness :
  let d := set_qtable_pkl (q_table (update_q_value "s" "restart" 5 fresh_agent))
             empty_disk in
  qtable_pkl (exec (save_models fresh_agent) d) = qtable_pkl d
  /\ predictor_pkl (exec (save_models fresh_agent) d) = None.
Proof.
  intros d.
  destruct (save_models_leaves_unheld_artifacts fresh_agent d)
    as (Hfp & _ & _ & Hq & _).
  split; [by apply Hq | by rewrite Hfp].
Defined.

Lemma load_models_stops_at_unreadable_witness :
  let d : disk (sample_sklearn true true true) string :=
    {| makedirs_ok := true; writable := true;
       predictor_pkl := None; anomaly_pkl := Some None;
       scaler_pkl := Some (Some StandardScaler);
       qtable_pkl := Some (Some (q_table (update_q_value "s" "restart" 5 fresh_agent)));
       history_json := None |} in
  scaler (exec (load_models d) fresh_agent) = None
  /\ q_table (exec (load_models d) fresh_agent) = ∅.
Proof.
  intros d.
  destruct (load_models_stops_at_unreadable fresh_agent d) as (_ & Hstop & _).
  destruct Hstop as (_ & Hsc & Hq); [reflexivity|].
  split; [exact Hsc | exact Hq].
Defined.

(** ** Repair actions against the outside world *)

Section ActionProperties.
Context {out : Outside}.

Lemma ran_ran (e : env) (xs ys : list (list string)) :
  ran (ran e xs) ys = ran e (xs ++ ys).
Proof.
  unfold ran. cbn. f_equal.
  - rewrite length_app. lia.
  - by rewrite (assoc_L (++)).
Qed.

Lemma ran_nil (e : env) : ran e [] = e.
Proof. destruct e. unfold ran. cbn. by rewrite app_nil_r. Qed.

Lemma get_service_scale_run (service : string) (e : env) :
  get_service_scale service e
  = (ran e [ps_command service],
     Done (listed_scale (process (calls e) (ps_command service)))).
Proof.
  unfold get_service_scale, catch_all, mbind, IO_bind, subprocess_run, listed_scale.
  fold (ps_command service).
  destruct (process (calls e) (ps_command service)) as [rc stdout|]; [|done].
  destruct rc; done.
Qed.

(** X14.  [get_service_scale] never raises and runs exactly one command,
    the container listing.  A listing that fails (non-zero exit, or a
    command that cannot be started) counts as scale 1; a listing that
    succeeds with blank output counts as scale 0. *)
Theorem get_service_scale_outcomes (service : string) (e : env) :
  exists n : nat,
    get_service_scale service e = (ran e [ps_command service], Done n)
    /\ (forall rc stdout,
          process (calls e) (ps_command service) = Exited rc stdout ->
          rc <> 0%Z -> n = 1%nat)
    /\ (process (calls e) (ps_command service) = NotStarted -> n = 1%nat)
    /\ (forall stdout,
          process (calls e) (ps_command service) = Exited 0 stdout ->
          PyStr.strip stdout = EmptyString -> n = 0%nat).
Proof.
  eexists. split; [apply get_service_scale_run|].
  split; [|split].
  - intros rc stdout -> Hrc. by destruct rc.
  - by intros ->.
  - intros stdout -> Hblank. cbn. by rewrite Hblank.
Qed.

(** X15.  Three of the seven actions are placeholders: [optimize_config],
    [rollback] and [no_action] report success without running any command.
    An action outside the seven, and [clear_cache] for any service but
    redis, report failure without running any command. *)
Theorem execute_action_without_command (service action : string) (e : env) :
  (action ∈ ["optimize_config"; "rollback"; "no_action"] ->
   execute_action service action e = (e, Done true))
  /\ (action ∉ actions -> execute_action service action e = (e, Done false))
  /\ (service <> "redis" ->
      execute_action service "clear_cache" e = (e, Done false)).
Proof.
  split; [|split].
  - rewrite !elem_of_cons, elem_of_nil.
    intros [->|[->|[->|[]]]]; reflexivity.
  - unfold actions. rewrite !not_elem_of_cons. intros (H1 & H2 & H3 & H4 & H5 & H6 & H7 & _).
    unfold execute_action.
    apply String.eqb_neq in H1, H2, H3, H4, H5, H6, H7.
    rewrite H1, H2, H3, H4, H5, H6, H7. reflexivity.
  - intros Hne. apply String.eqb_neq in Hne.
    unfold execute_action. cbn [String.eqb Ascii.eqb Bool.eqb].
    rewrite Hne. reflexivity.
Qed.

(** X16.  [restart] runs one command and reports whether it exited with
    status 0; a command that cannot be started is not reported as a
    failure but raised to the caller.  No action ever lets
    [CalledProcessError] through. *)
Theorem execute_action_restart (service action : string) (e : env) :
  execute_action service "restart" e
  = (ran e [restart_command service],
     match process (calls e) (restart_command service) with
     | Exited rc _ => Done (rc =? 0)%Z
     | NotStarted => Thrown OtherError
     end)
  /\ snd (execute_action service action e) <> Thrown CalledProcessError.
Proof.
  split.
  - unfold execute_action, catch_called_process_error, mbind, IO_bind,
      subprocess_run. cbn [String.eqb Ascii.eqb Bool.eqb].
    fold (restart_command service).
    destruct (process (calls e) (restart_command service)) as [rc stdout|]; [|done].
    destruct rc; done.
  - unfold execute_action, catch_called_process_error.
    match goal with
    | |- context [match ?body e with _ => _ end] => destruct (body e) as [e' [b|[|]]]
    end; done.
Qed.

Lemma io_bind_unfold {St A B} (m : IO St A) (k : A -> IO St B) (s : St) :
  (m ≫= k) s
  = match m s with
    | (s', Done x) => k x s'
    | (s', Thrown e) => (s', Thrown e)
    end.
Proof. reflexivity. Qed.

(** X17.  [scale_down] never scales a service below one replica: it either
    runs the listing alone and reports failure, which is what happens when
    the listed scale is at most 1 or the listing itself fails, or it runs
    the listing and then one scaling command to a count of at least 1. *)
Theorem scale_down_keeps_one_replica (service : string) (e : env) :
  let r := execute_action service "scale_down" e in
  let k := listed_scale (process (calls e) (ps_command service)) in
  ((k <= 1)%nat -> r = (ran e [ps_command service], Done false))
  /\ ((1 < k)%nat ->
      fst r = ran e [ps_command service; scale_command service (k - 1)]
      /\ (1 <= k - 1)%nat
      /\ snd r = match process (S (calls e)) (scale_command service (k - 1)) with
                 | Exited rc _ => Done (rc =? 0)%Z
                 | NotStarted => Thrown OtherError
                 end).
Proof.
  intros r k. subst r.
  unfold execute_action, catch_called_process_error.
  cbn [String.eqb Ascii.eqb Bool.eqb].
  rewrite io_bind_unfold, get_service_scale_run. fold k.
  split.
  - intros Hk. destruct (Nat.ltb_spec 1 k); [lia|]. reflexivity.
  - intros Hk. destruct (Nat.ltb_spec 1 k); [|lia].
    rewrite io_bind_unfold. unfold subprocess_run.
    fold (scale_command service (k - 1)).
    cbn [calls commands ran length Nat.add].
    assert ((commands e ++ [ps_command service]) ++ [scale_command service (k - 1)]
            = commands e ++ [ps_command service; scale_command service (k - 1)])
      as -> by (by rewrite <- (assoc_L (++))).
    destruct (process (S (calls e)) (scale_command service (k - 1)))
      as [rc stdout|]; [destruct rc|];
      (split; [reflexivity | split; [lia | reflexivity]]).
Qed.


End ActionProperties.

Lemma get_service_scale_outcomes_witness :
  (exists e, @get_service_scale (scripted_outside [Exited 1 "no such service"] [] [])
               "redis" fresh_env = (e, Done 1%nat))
  /\ (exists e, @get_service_scale (scripted_outside [] [] [])
                  "redis" fresh_env = (e, Done 1%nat))
  /\ (exists e, @get_service_scale (scripted_outside [Exited 0 (lines_text [" "])] [] [])
                  "redis" fresh_env = (e, Done 0%nat)).
Proof.
  split; [|split].
  - destruct (@get_service_scale_outcomes
                (scripted_outside [Exited 1 "no such service"] [] []) "redis" fresh_env)
      as (n & Hrun & Hfail & _).
    rewrite (Hfail 1%Z "no such service" eq_refl) in Hrun by lia. eauto.
  - destruct (@get_service_scale_outcomes
                (scripted_outside [] [] []) "redis" fresh_env)
      as (n & Hrun & _ & Hnone & _).
    rewrite (Hnone eq_refl) in Hrun. eauto.
  - destruct (@get_service_scale_outcomes
                (scripted_outside [Exited 0 (lines_text [" "])] [] []) "redis" fresh_env)
      as (n & Hrun & _ & _ & Hblank).
    rewrite (Hblank (lines_text [" "]) eq_refl eq_refl) in Hrun. eauto.
Defined.

Lemma execute_action_without_command_witness :
  @execute_action (scripted_outside [] [] []) "redis" "rollback" fresh_env
  = (fresh_env, Done true)
  /\ @execute_action (scripted_outside [] [] []) "redis" "reboot" fresh_env
     = (fresh_env, Done false)
  /\ @execute_action (scripted_outside [] [] []) "postgres" "clear_cache" fresh_env
     = (fresh_env, Done false).
Proof.
  destruct (@execute_action_without_command (scripted_outside [] [] [])
              "redis" "rollback" fresh_env) as (Hplace & _ & _).
  destruct (@execute_action_without_command (scripted_outside [] [] [])
              "redis" "reboot" fresh_env) as (_ & Hunknown & _).
  destruct (@execute_action_without_command (scripted_outside [] [] [])
              "postgres" "clear_cache" fresh_env) as (_ & _ & Hcache).
  split; [|split].
  - apply Hplace. rewrite !elem_of_cons. auto.
  - apply Hunknown. unfold actions. rewrite !not_elem_of_cons, elem_of_nil.
    repeat split; discriminate || tauto.
  - apply Hcache. discriminate.
Defined.

Lemma scale_down_keeps_one_replica_witness :
  @execute_action (scripted_outside [Exited 0 (lines_text ["4f0c"])] [] [])
    "redis" "scale_down" fresh_env
  = (ran fresh_env [ps_command "redis"], Done false)
  /\ @execute_action
       (scripted_outside [Exited 0 (lines_text ["4f0c"; "77ab"]); Exited 0 ""] [] [])
       "redis" "scale_down" fresh_env
     = (ran fresh_env [ps_command "redis"; scale_command "redis" 1], Done true).
Proof.
  split.
  - destruct (@scale_down_keeps_one_replica
                (scripted_outside [Exited 0 (lines_text ["4f0c"])] [] [])
                "redis" fresh_env) as [Hone _].
    apply Hone. vm_compute. lia.
  - destruct (@scale_down_keeps_one_replica
                (scripted_outside [Exited 0 (lines_text ["4f0c"; "77ab"]); Exited 0 ""] [] [])
                "redis" fresh_env) as [_ Htwo].
    destruct Htwo as (Henv & _ & Hres); [vm_compute; lia|].
    apply injective_projections; [exact Henv | exact Hres].
Defined.


(** ** Collecting metrics *)

Lemma returns_ret {St A} (P : A -> Prop) (x : A) :
  P x -> returns (St := St) P (mret x).
Proof. intros HP s. by exists s, x. Qed.

Lemma returns_bind {St A B} (P : A -> Prop) (R : B -> Prop)
    (m : IO St A) (k : A -> IO St B) :
  returns P m -> (forall x, P x -> returns R (k x)) -> returns R (m ≫= k).
Proof.
  intros Hm Hk s. destruct (Hm s) as (s1 & x & Hrun & HP).
  destruct (Hk x HP s1) as (s2 & y & Hrun' & HR).
  exists s2, y. split; [|done].
  rewrite io_bind_unfold, Hrun. exact Hrun'.
Qed.

Lemma returns_weaken {St A} (P R : A -> Prop) (m : IO St A) :
  returns P m -> (forall x, P x -> R x) -> returns R m.
Proof.
  intros Hm HPR s. destruct (Hm s) as (s' & x & Hrun & HP). eauto 6.
Qed.

Section CollectingProperties.
Context {out : Outside}.

Lemma get_prometheus_metric_run (query : string) (e : env) :
  get_prometheus_metric query e
  = ({| calls := S (calls e); commands := commands e |},
     Done match http (calls e) query with
          | Response 200 (Some (Some v :: _)) => v
          | _ => 0%Q
          end).
Proof.
  unfold get_prometheus_metric, catch_all.
  rewrite io_bind_unfold. unfold requests_get.
  destruct (http (calls e) query) as [|status body]; [done|].
  destruct (Z.eqb_spec status 200) as [-> | Hne].
  - destruct body as [[|[v|] results]|]; done.
  - destruct status as [|p|p]; try done.
    repeat (destruct p as [p|p|]; try done).
Qed.

(** X19.  [get_prometheus_metric] never raises and makes exactly one
    request.  It returns the first result's value when the answer has
    status 200, a body that parses and a first result that converts to a
    float; in every other case (no answer, another status, a broken body,
    no result) it returns 0.0. *)
Theorem get_prometheus_metric_defaults_to_zero (query : string) (e : env) :
  exists v : Q,
    get_prometheus_metric query e
    = ({| calls := S (calls e); commands := commands e |}, Done v)
    /\ (forall x rest,
          http (calls e) query = Response 200 (Some (Some x :: rest)) -> v = x)
    /\ (http (calls e) query = NoAnswer -> v = 0%Q)
    /\ (forall status body,
          http (calls e) query = Response status body ->
          status <> 200%Z -> v = 0%Q)
    /\ (forall status rest,
          http (calls e) query = Response status None
          \/ http (calls e) query = Response status (Some [])
          \/ http (calls e) query = Response status (Some (None :: rest)) ->
          v = 0%Q).
Proof.
  eexists. split; [apply get_prometheus_metric_run|].
  split; [|split; [|split]].
  - by intros x rest ->.
  - by intros ->.
  - intros status body -> Hne. destruct status as [|p|p]; try done.
    repeat (destruct p as [p|p|]; try done).
  - intros status rest [-> | [-> | ->]];
      destruct status as [|p|p]; try done;
      repeat (destruct p as [p|p|]; try done).
Qed.

Lemma get_prometheus_metric_returns (query : string) :
  returns (fun _ => True) (get_prometheus_metric query).
Proof. intros e. rewrite get_prometheus_metric_run. eauto. Qed.

Lemma get_prometheus_metric_down (query : string) :
  returns (fun v => (forall n q, http n q = NoAnswer) -> v = 0%Q)
    (get_prometheus_metric query).
Proof.
  intros e. rewrite get_prometheus_metric_run. eexists _, _.
  split; [reflexivity|]. intros Hdown. by rewrite Hdown.
Qed.

Lemma get_health_status_returns (service : string) :
  returns (fun status => status <> EmptyString) (get_health_status service).
Proof.
  intros e. unfold get_health_status, catch_all.
  rewrite io_bind_unfold. unfold subprocess_run at 1.
  destruct (process (calls e) _) as [rc stdout|]; [|by eexists _, _].
  destruct rc as [|p|p]; cbn [andb negb Z.eqb]; [|by eexists _, _..].
  destruct (PyStr.strip stdout) as [|c id]; cbn [negb PyStr.truthy];
    [by eexists _, _|].
  rewrite io_bind_unfold. unfold subprocess_run. cbn [calls commands andb].
  destruct (process _ _) as [rc' out'|]; [|by eexists _, _].
  eexists _, _. split; [reflexivity|]. by destruct (PyStr.strip out').
Qed.

Lemma datetime_now_returns : returns (fun _ => True) datetime_now.
Proof. intros e. unfold datetime_now. eauto. Qed.

Lemma returns_catch_all {A} (P : A -> Prop) (body handler : IO env A) :
  returns P body -> returns P (catch_all body handler).
Proof.
  intros Hbody e. destruct (Hbody e) as (e' & x & Hrun & HP).
  exists e', x. split; [|done]. unfold catch_all. by rewrite Hrun.
Qed.

Lemma collect_service_returns (svc : string) :
  returns (fun m => service m = svc /\ well_collected m) (collect_service svc).
Proof.
  unfold collect_service.
  eapply returns_bind; [apply datetime_now_returns|]. intros now _.
  eapply returns_bind; [apply get_prometheus_metric_down|]. intros cpu Hcpu.
  eapply returns_bind; [apply get_prometheus_metric_down|]. intros mem Hmem.
  eapply returns_bind; [apply get_prometheus_metric_down|]. intros dsk Hdsk.
  eapply returns_bind; [apply get_prometheus_metric_down|]. intros net Hnet.
  eapply returns_bind; [apply get_prometheus_metric_down|]. intros rst Hrst.
  eapply returns_bind; [apply get_health_status_returns|]. intros health Hhealth.
  eapply returns_bind; [apply get_prometheus_metric_down|]. intros resp Hresp.
  eapply returns_bind; [apply get_prometheus_metric_down|]. intros err Herr.
  eapply returns_bind; [apply get_prometheus_metric_down|]. intros req Hreq.
  apply returns_ret. split; [reflexivity|]. split; [exact Hhealth|].
  intros Hdown. unfold all_zero. cbn.
  rewrite (Hcpu Hdown), (Hmem Hdown), (Hdsk Hdown), (Hnet Hdown), (Hrst Hdown),
    (Hresp Hdown), (Herr Hdown), (Hreq Hdown).
  repeat split.
Qed.

Lemma collect_loop_returns (todo : list string) :
  forall metrics : list ServiceMetrics,
    returns (fun metrics' =>
               service <$> metrics' = (service <$> metrics) ++ todo
               /\ (Forall well_collected metrics -> Forall well_collected metrics'))
      (collect_loop todo metrics).
Proof.
  induction todo as [|svc rest IH]; intros metrics.
  - apply returns_ret. by rewrite app_nil_r.
  - cbn [collect_loop].
    eapply (returns_bind
              (fun metrics' => exists m, metrics' = metrics ++ [m]
                                         /\ service m = svc /\ well_collected m)).
    + apply returns_catch_all.
      eapply returns_bind; [apply collect_service_returns|].
      intros m Hm. apply returns_ret. by exists m.
    + intros metrics' (m & -> & Hsvc & Hgood).
      eapply returns_weaken; [apply IH|].
      intros final [Hnames Hall]. split.
      * rewrite Hnames, fmap_app. cbn. rewrite Hsvc.
        by rewrite <- (assoc_L (++)).
      * intros Hold. apply Hall. apply Forall_app. split; [done|].
        by apply Forall_singleton.
Qed.

(** X20.  [collect_metrics] never raises and always returns one snapshot
    for each of the seven services, in the fixed order of the service
    list, each with a non-empty health status.  When the metrics backend
    gives no answer at all, every numeric field of every snapshot is 0:
    an outage shows up as all-zero snapshots, not as missing ones. *)
Theorem collect_metrics_always_seven (e : env) :
  exists (e' : env) (metrics : list ServiceMetrics),
    collect_metrics e = (e', Done metrics)
    /\ service <$> metrics = services
    /\ length metrics = 7%nat
    /\ Forall (fun m => health_status m <> EmptyString) metrics
    /\ ((forall n q, http n q = NoAnswer) -> Forall all_zero metrics).
Proof.
  destruct (collect_loop_returns services [] e)
    as (e' & metrics & Hrun & Hnames & Hgood).
  exists e', metrics. split; [exact Hrun|]. cbn in Hnames.
  split; [exact Hnames|].
  split; [by rewrite <- (length_fmap service), Hnames|].
  specialize (Hgood (Forall_nil_2 _)).
  split.
  - eapply Forall_impl; [exact Hgood|]. by intros m [Hh _].
  - intros Hdown. eapply Forall_impl; [exact Hgood|]. intros m [_ Hz]. by apply Hz.
Qed.

End CollectingProperties.

Lemma collect_metrics_always_seven_witness :
  exists (e : env) (metrics : list ServiceMetrics),
    @collect_metrics (scripted_outside [] [] []) fresh_env = (e, Done metrics)
    /\ Forall all_zero metrics.
Proof.
  destruct (@collect_metrics_always_seven (scripted_outside [] [] []) fresh_env)
    as (e & metrics & Hrun & _ & _ & _ & Hzero).
  exists e, metrics. split; [exact Hrun|]. apply Hzero. reflexivity.
Defined.

Lemma get_prometheus_metric_defaults_to_zero_witness :
  (exists e, @get_prometheus_metric
               (scripted_outside [] [Response 200 (Some [Some (3 # 4)%Q])] [])
               disk_query fresh_env = (e, Done (3 # 4)%Q))
  /\ (exists e, @get_prometheus_metric
                  (scripted_outside [] [Response 503 None] [])
                  disk_query fresh_env = (e, Done 0%Q)).
Proof.
  split.
  - destruct (@get_prometheus_metric_defaults_to_zero
                (scripted_outside [] [Response 200 (Some [Some (3 # 4)%Q])] [])
                disk_query fresh_env) as (v & Hrun & Hfirst & _).
    rewrite (Hfirst (3 # 4)%Q [] eq_refl) in Hrun. eauto.
  - destruct (@get_prometheus_metric_defaults_to_zero
                (scripted_outside [] [Response 503 None] [])
                disk_query fresh_env) as (v & Hrun & _ & _ & Hstatus & _).
    rewrite (Hstatus 503%Z None eq_refl) in Hrun by lia. eauto.
Defined.

(** ** Reasoning about the running agent *)

Lemma ensures_ret {St A} (P : A -> Prop) (x : A) :
  P x -> ensures (St := St) P (mret x).
Proof. intros HP s s' y Hrun. by injection Hrun as _ <-. Qed.

Lemma ensures_bind {St A B} (P : A -> Prop) (R : B -> Prop)
    (m : IO St A) (k : A -> IO St B) :
  ensures P m -> (forall x, P x -> ensures R (k x)) -> ensures R (m ≫= k).
Proof.
  intros Hm Hk s s' y. rewrite io_bind_unfold.
  destruct (m s) as [s1 [x|e]] eqn:Hrun; [|done].
  intros Hrun'. exact (Hk x (Hm _ _ _ Hrun) _ _ _ Hrun').
Qed.

Lemma ensures_catch_all {St A} (P : A -> Prop) (body handler : IO St A) :
  ensures P body -> ensures P handler -> ensures P (catch_all body handler).
Proof.
  intros Hbody Hhandler s s' y. unfold catch_all.
  destruct (body s) as [s1 [x|e]] eqn:Hrun.
  - intros Heq. injection Heq as _ <-. exact (Hbody _ _ _ Hrun).
  - apply Hhandler.
Qed.

Lemma ensures_any {St A} (m : IO St A) : ensures (fun _ => True) m.
Proof. by intros s s' x _. Qed.

Lemma ensures_weaken {St A} (P R : A -> Prop) (m : IO St A) :
  ensures P m -> (forall x, P x -> R x) -> ensures R m.
Proof. intros Hm HPR s s' x Hrun. exact (HPR _ (Hm _ _ _ Hrun)). Qed.


Section RuntimeReasoning.
Context {sk : Sklearn} {skp : SklearnPredict sk} {Failure : Type} {out : Outside}.

Lemma keeps_ret {X A} (f : runtime sk Failure -> X) (x : A) : keeps f (mret x).
Proof. by intros s. Qed.

Lemma keeps_throw {X A} (f : runtime sk Failure -> X) (e : exn) :
  keeps f (throw e : IO (runtime sk Failure) A).
Proof. by intros s. Qed.

Lemma keeps_io_call {X A} (f : runtime sk Failure -> X) (o : option A) :
  keeps f (io_call o).
Proof. intros s. by destruct o. Qed.

Lemma keeps_io_gets {X A} (f : runtime sk Failure -> X) (g : runtime sk Failure -> A) :
  keeps f (io_gets g).
Proof. by intros s. Qed.

Lemma keeps_bind {X A B} (f : runtime sk Failure -> X) (m : IO (runtime sk Failure) A)
    (k : A -> IO (runtime sk Failure) B) :
  keeps f m -> (forall x, keeps f (k x)) -> keeps f (m ≫= k).
Proof.
  intros Hm Hk s. rewrite io_bind_unfold. specialize (Hm s).
  destruct (m s) as [s1 [x|e]]; cbn in *; [|done].
  by rewrite Hk.
Qed.

Lemma keeps_catch_all {X A} (f : runtime sk Failure -> X) (body handler : IO (runtime sk Failure) A) :
  keeps f body -> keeps f handler -> keeps f (catch_all body handler).
Proof.
  intros Hbody Hhandler s. unfold catch_all. specialize (Hbody s).
  destruct (body s) as [s1 [x|e]]; cbn in *; [done|].
  by rewrite Hhandler.
Qed.

Lemma keeps_on_env {X A} (f : runtime sk Failure -> X) (m : IO env A) :
  (forall e s, f (set_outside_now e s) = f s) -> keeps f (on_env m).
Proof. intros Hf s. apply Hf. Qed.

Lemma keeps_on_disk {X A} (f : runtime sk Failure -> X) (m : Py (disk sk Failure) A) :
  (forall d s, f (set_disk_now d s) = f s) -> keeps f (on_disk m).
Proof. intros Hf s. apply Hf. Qed.

Lemma keeps_modify {X} (f : runtime sk Failure -> X) (g : runtime sk Failure -> runtime sk Failure) :
  (forall s, f (g s) = f s) -> keeps f (io_modify g).
Proof. intros Hf s. apply Hf. Qed.

Lemma keeps_for_each {X A} (f : runtime sk Failure -> X) (g : A -> IO (runtime sk Failure) unit)
    (l : list A) :
  (forall x, keeps f (g x)) -> keeps f (for_each g l).
Proof.
  intros Hg. induction l as [|x l IH]; [apply keeps_ret|].
  apply keeps_bind; [apply Hg | by intros _].
Qed.

Lemma keeps_truth {X A} (f : runtime sk Failure -> X) (bool_of : A -> option bool)
    (field : option A) :
  keeps f (truth bool_of field).
Proof. destruct field; [apply keeps_io_call | apply keeps_ret]. Qed.

End RuntimeReasoning.

(** One step of a frame argument: through binds, handlers, branches and the
    parts of the state a computation runs on. *)
Ltac keeps_step :=
  first
    [ apply keeps_ret
    | apply keeps_throw
    | apply keeps_io_call
    | apply keeps_io_gets
    | apply keeps_truth
    | apply keeps_on_env; intros; reflexivity
    | apply keeps_on_disk; intros; reflexivity
    | apply keeps_modify; intros; reflexivity
    | apply keeps_catch_all
    | apply keeps_bind; [|intros ?]
    | match goal with
      | |- keeps _ (if ?b then _ else _) => destruct b
      | |- keeps _ (match ?x with _ => _ end) => destruct x
      end ].

(** ** Predictions and anomalies *)

Section PredictionProperties.
Context {sk : Sklearn} {skp : SklearnPredict sk} {Failure : Type} {out : Outside}.
Implicit Types (s : runtime sk Failure) (metric : ServiceMetrics).

Lemma select_action_io_keeps {X} (f : runtime sk Failure -> X) (state : string) :
  (forall e s, f (set_outside_now e s) = f s) ->
  keeps f (select_action_io state).
Proof.
  intros Hf. unfold select_action_io.
  apply keeps_bind; [apply keeps_io_gets|]. intros a.
  apply keeps_bind; [by apply keeps_on_env|]. intros u.
  destruct (PyFloat.ltb u (epsilon a)); [|apply keeps_io_call].
  apply keeps_bind; [by apply keeps_on_env|]. intros pick. apply keeps_io_call.
Qed.


Lemma predict_one_keeps {X} (f : runtime sk Failure -> X) metric :
  (forall e s, f (set_outside_now e s) = f s) ->
  keeps f (predict_one metric).
Proof.
  intros Hf. unfold predict_one.
  apply keeps_bind; [apply keeps_io_gets|]. intros a.
  do 7 (apply keeps_bind; [apply keeps_io_call|]; intros ?).
  apply keeps_bind; [by apply select_action_io_keeps|]. intros action.
  apply keeps_bind; [|intros ?; apply keeps_ret].
  destruct (PyFloat.gtb _ _);
    (apply keeps_bind; [by apply keeps_on_env | intros ?; apply keeps_ret]).
Qed.



Lemma predict_loop_keeps {X} (f : runtime sk Failure -> X)
    (todo : list ServiceMetrics) :
  (forall e s, f (set_outside_now e s) = f s) ->
  forall predictions, keeps f (predict_loop todo predictions).
Proof.
  intros Hf. induction todo as [|metric rest IH]; intros predictions.
  - apply keeps_ret.
  - cbn [predict_loop]. apply keeps_bind; [|intros ?; apply IH].
    apply keeps_catch_all; [|apply keeps_ret].
    apply keeps_bind; [by apply predict_one_keeps | intros ?; apply keeps_ret].
Qed.


Lemma predict_failures_keeps {X} (f : runtime sk Failure -> X)
    (current_metrics : list ServiceMetrics) :
  (forall e s, f (set_outside_now e s) = f s) ->
  keeps f (predict_failures current_metrics).
Proof.
  intros Hf. unfold predict_failures.
  apply keeps_bind; [apply keeps_io_gets|]. intros a.
  apply keeps_bind; [apply keeps_truth|]. intros [|]; [|apply keeps_ret].
  apply keeps_bind; [apply keeps_truth|]. intros [|]; [|apply keeps_ret].
  by apply predict_loop_keeps.
Qed.


Lemma predict_loop_unfitted (todo : list ServiceMetrics) s (sc : Scaler) :
  scaler (agent_now s) = Some sc ->
  (forall X, transform sc X = None) ->
  forall predictions, predict_loop todo predictions s = (s, Done predictions).
Proof.
  intros Hsc Hraise. induction todo as [|metric rest IH]; intros predictions.
  - reflexivity.
  - cbn [predict_loop]. rewrite io_bind_unfold.
    assert (predict_one metric s = (s, Thrown OtherError)) as Hone.
    { unfold predict_one. rewrite io_bind_unfold. cbn [io_gets].
      rewrite Hsc. rewrite io_bind_unfold. cbn [io_call mret IO_ret].
      rewrite io_bind_unfold, Hraise. reflexivity. }
    unfold catch_all at 1. rewrite io_bind_unfold, Hone. apply IH.
Qed.

(** X22.  Without a classifier or without a scaler [predict_failures]
    returns no prediction and touches nothing, not even the outside world.
    The same holds when both are set but the scaler's [transform] raises,
    as it does for a scaler that was never fitted: every snapshot is
    skipped silently. *)
Theorem predict_failures_needs_models (current_metrics : list ServiceMetrics) s :
  (failure_predictor (agent_now s) = None ->
   predict_failures current_metrics s = (s, Done []))
  /\ (forall m,
        failure_predictor (agent_now s) = Some m ->
        classifier_bool m = Some true ->
        scaler (agent_now s) = None ->
        predict_failures current_metrics s = (s, Done []))
  /\ (forall m sc,
        failure_predictor (agent_now s) = Some m ->
        classifier_bool m = Some true ->
        scaler (agent_now s) = Some sc ->
        scaler_bool sc = Some true ->
        (forall X, transform sc X = None) ->
        predict_failures current_metrics s = (s, Done [])).
Proof.
  unfold predict_failures. split; [|split].
  - intros Hfp. rewrite io_bind_unfold. cbn [io_gets]. by rewrite Hfp.
  - intros m Hfp Hm Hsc. rewrite io_bind_unfold. cbn [io_gets].
    rewrite Hfp. cbn [truth]. rewrite io_bind_unfold, Hm. cbn [io_call mret IO_ret negb].
    by rewrite Hsc.
  - intros m sc Hfp Hm Hsc Hscb Hraise. rewrite io_bind_unfold. cbn [io_gets].
    rewrite Hfp. cbn [truth]. rewrite io_bind_unfold, Hm. cbn [io_call mret IO_ret negb].
    rewrite Hsc. cbn [truth]. rewrite io_bind_unfold, Hscb.
    cbn [io_call mret IO_ret negb].
    by apply (predict_loop_unfitted current_metrics s sc).
Qed.

End PredictionProperties.

Section AnomalyProperties.
Context {sk : Sklearn} {skp : SklearnPredict sk} {Failure : Type} {out : Outside}.
Implicit Types (s : runtime sk Failure) (metric : ServiceMetrics).

Lemma is_anomaly_keeps {X} (f : runtime sk Failure -> X) metric :
  keeps f (is_anomaly metric).
Proof.
  unfold is_anomaly.
  apply keeps_bind; [apply keeps_io_gets|]. intros a.
  do 5 (apply keeps_bind; [apply keeps_io_call|]; intros ?).
  apply keeps_ret.
Qed.

Lemma detect_loop_keeps {X} (f : runtime sk Failure -> X)
    (todo : list ServiceMetrics) :
  forall anomalies, keeps f (detect_loop todo anomalies).
Proof.
  induction todo as [|metric rest IH]; intros anomalies.
  - apply keeps_ret.
  - cbn [detect_loop]. apply keeps_bind; [|intros ?; apply IH].
    apply keeps_catch_all; [|apply keeps_ret].
    apply keeps_bind; [apply is_anomaly_keeps | intros ?; apply keeps_ret].
Qed.

Lemma detect_anomalies_keeps {X} (f : runtime sk Failure -> X)
    (current_metrics : list ServiceMetrics) :
  keeps f (detect_anomalies current_metrics).
Proof.
  unfold detect_anomalies.
  apply keeps_bind; [apply keeps_io_gets|]. intros a.
  apply keeps_bind; [apply keeps_truth|]. intros [|]; [|apply keeps_ret].
  apply keeps_bind; [apply keeps_truth|]. intros [|]; [|apply keeps_ret].
  apply detect_loop_keeps.
Qed.

Lemma detect_loop_ensures (todo : list ServiceMetrics) :
  forall anomalies,
    ensures (fun final => exists new, final = anomalies ++ new /\ sublist new todo)
      (detect_loop (Failure := Failure) todo anomalies).
Proof.
  induction todo as [|metric rest IH]; intros anomalies.
  - apply ensures_ret. exists []. by rewrite app_nil_r.
  - cbn [detect_loop].
    eapply (ensures_bind
              (fun acc => acc = anomalies \/ acc = anomalies ++ [metric])).
    + apply ensures_catch_all; [|apply ensures_ret; by left].
      eapply (ensures_bind (fun _ => True)); [apply ensures_any|].
      intros [|] _; apply ensures_ret; auto.
    + intros acc Hacc. eapply ensures_weaken; [apply IH|].
      intros final (new & -> & Hsub). destruct Hacc as [-> | ->].
      * exists new. split; [done | by apply sublist_cons].
      * exists (metric :: new).
        split; [by rewrite <- (assoc_L (++)) | by apply sublist_skip].
Qed.

(** X23.  [detect_anomalies] changes nothing at all, neither the agent nor
    the outside world: it only reads the detector and the scaler.  What it
    returns is a selection, in order, of the snapshots it was given, and it
    is empty when the detector or the scaler is not set. *)
Theorem detect_anomalies_selects (current_metrics : list ServiceMetrics) s :
  fst (detect_anomalies current_metrics s) = s
  /\ (forall anomalies,
        snd (detect_anomalies current_metrics s) = Done anomalies ->
        sublist anomalies current_metrics)
  /\ (anomaly_detector (agent_now s) = None ->
      detect_anomalies current_metrics s = (s, Done []))
  /\ (forall d,
        anomaly_detector (agent_now s) = Some d ->
        detector_bool d = Some true ->
        scaler (agent_now s) = None ->
        detect_anomalies current_metrics s = (s, Done [])).
Proof.
  split; [apply (detect_anomalies_keeps (fun s => s))|]. split; [|split].
  - intros anomalies Hrun.
    assert (ensures (fun final => sublist final current_metrics)
              (detect_anomalies (Failure := Failure) current_metrics)) as Hens.
    { unfold detect_anomalies.
      eapply (ensures_bind (fun _ => True)); [apply ensures_any|]. intros a _.
      eapply (ensures_bind (fun _ => True)); [apply ensures_any|]. intros [|] _;
        [|apply ensures_ret; apply sublist_nil_l].
      eapply (ensures_bind (fun _ => True)); [apply ensures_any|]. intros [|] _;
        [|apply ensures_ret; apply sublist_nil_l].
      eapply ensures_weaken; [apply detect_loop_ensures|].
      by intros final (new & -> & Hsub). }
    destruct (detect_anomalies current_metrics s) as [s' r] eqn:Hda.
    cbn in Hrun. subst r. exact (Hens _ _ _ Hda).
  - intros Hd. unfold detect_anomalies. rewrite io_bind_unfold. cbn [io_gets].
    by rewrite Hd.
  - intros d Hd Hdb Hsc. unfold detect_anomalies. rewrite io_bind_unfold.
    cbn [io_gets]. rewrite Hd. cbn [truth]. rewrite io_bind_unfold, Hdb.
    cbn [io_call mret IO_ret negb]. by rewrite Hsc.
Qed.

Lemma handle_anomaly_keeps {X} (f : runtime sk Failure -> X) metric :
  (forall e s, f (set_outside_now e s) = f s) ->
  keeps f (handle_anomaly metric).
Proof.
  intros Hf. unfold handle_anomaly.
  apply keeps_bind; [by apply select_action_io_keeps|]. intros action.
  apply keeps_bind; [by apply keeps_on_env | intros ?; apply keeps_ret].
Qed.

(** X24.  Handling an anomaly teaches the agent nothing: whatever the
    chosen action does, [handle_anomaly] leaves the Q-table and every other
    field of the agent, the repair records and the files as they were. *)
Theorem handle_anomaly_learns_nothing metric s :
  agent_now (fst (handle_anomaly metric s)) = agent_now s
  /\ repair_history (fst (handle_anomaly metric s)) = repair_history s
  /\ disk_now (fst (handle_anomaly metric s)) = disk_now s.
Proof. repeat split; by apply handle_anomaly_keeps. Qed.

End AnomalyProperties.

(** ** Learning from a preventive action *)

Section LearningFromActions.
Context {sk : Sklearn} {skp : SklearnPredict sk} {Failure : Type} {out : Outside}.
Implicit Types (s : runtime sk Failure) (metric : ServiceMetrics).

Lemma on_env_collect_metrics s :
  exists e collected,
    on_env (Failure := Failure) collect_metrics s
    = (set_outside_now e s, Done collected)
    /\ service <$> collected = services.
Proof.
  destruct (collect_loop_returns services [] (outside_now s))
    as (e & collected & Hrun & Hnames & _).
  exists e, collected. split; [|exact Hnames].
  unfold on_env, collect_metrics. by rewrite Hrun.
Qed.

Lemma take_preventive_action_keeps {X} (f : runtime sk Failure -> X)
    (prediction : FailurePrediction.t) :
  (forall e s, f (set_outside_now e s) = f s) ->
  (forall h s, f (set_repair_history h s) = f s) ->
  (forall state action reward s,
     f (set_agent_now (update_q_value state action reward (agent_now s)) s) = f s) ->
  keeps f (take_preventive_action prediction).
Proof.
  intros Henv Hrep Hupd. unfold take_preventive_action.
  apply keeps_bind; [by apply keeps_on_env|]. intros collected.
  destruct (filter _ collected) as [|metrics_before rest]; [apply keeps_ret|].
  apply keeps_bind; [by apply keeps_on_env|]. intros success.
  apply keeps_bind; [by apply keeps_on_env|]. intros collected_after.
  apply keeps_bind; [by apply keeps_on_env|]. intros now.
  apply keeps_bind; [apply keeps_modify; intros; apply Hrep|]. intros _.
  apply keeps_modify. intros. apply Hupd.
Qed.


End LearningFromActions.

(** ** The loop of [run] *)

Section LoopProperties.
Context {sk : Sklearn} {skp : SklearnPredict sk} {Failure : Type} {out : Outside}.
Implicit Types (s : runtime sk Failure) (metric : ServiceMetrics).

Lemma train_models_keeps_window (a : agent sk Failure) :
  metrics_history (exec train_models a) = metrics_history a.
Proof.
  rewrite train_models_cases. cbv zeta.
  destruct (length (metrics_history a) <? 100)%nat; [done|].
  destruct (fit_transform _ _) as [[sc X_scaled]|]; [|done].
  destruct (classifier_fit _ _ _) as [m|]; [|done].
  destruct (detector_fit _ _) as [dt|]; done.
Qed.

Lemma end_of_tick_keeps_window :
  keeps window_now (end_of_tick (sk := sk) (Failure := Failure)).
Proof.
  unfold end_of_tick.
  apply keeps_bind; [apply keeps_io_gets|]. intros a.
  apply keeps_bind.
  { destruct (_ =? 0)%nat; [|apply keeps_ret].
    intros s. apply train_models_keeps_window. }
  intros _. apply keeps_bind; [apply keeps_io_gets|]. intros a'.
  destruct (_ =? 0)%nat; [|apply keeps_ret].
  apply keeps_bind.
  - unfold save_models_now.
    apply keeps_bind; [apply keeps_io_gets|]. intros a2.
    by apply keeps_on_disk.
  - intros _. unfold save_history_now.
    apply keeps_bind; [apply keeps_io_gets|]. intros a2.
    apply keeps_bind; [apply keeps_io_gets|]. intros d.
    apply keeps_bind; [|intros ?; by apply keeps_on_disk].
    destruct (makedirs_ok d); [by apply keeps_on_env | apply keeps_ret].
Qed.

Lemma tick_run s :
  exists metrics,
    service <$> metrics = services
    /\ snd (tick s) = Done tt
    /\ window_now (fst (tick s))
       = Deque.extend metrics_maxlen (window_now s) metrics.
Proof.
  destruct (on_env_collect_metrics s) as (e1 & metrics & Hcollect & Hnames).
  exists metrics. split; [exact Hnames|].
  unfold tick, catch_all. rewrite io_bind_unfold, Hcollect.
  rewrite io_bind_unfold. cbn [io_modify].
  set (s2 := set_agent_now (store_metrics metrics (agent_now (set_outside_now e1 s)))
               (set_outside_now e1 s)).
  match goal with
  | |- context [let (_, _) := ?rest s2 in _] =>
    assert (keeps window_now rest) as Hrest; [|specialize (Hrest s2);
                                                 destruct (rest s2) as [s3 [[]|ex]]]
  end.
  - apply keeps_bind; [by apply predict_failures_keeps|]. intros predictions.
    apply keeps_bind.
    { apply keeps_for_each. intros prediction.
      destruct (PyFloat.gtb _ _); [|apply keeps_ret].
      by apply take_preventive_action_keeps. }
    intros _. apply keeps_bind; [apply detect_anomalies_keeps|]. intros anomalies.
    apply keeps_bind; [|intros _; apply end_of_tick_keeps_window].
    apply keeps_for_each. intros metric. by apply handle_anomaly_keeps.
  - split; [reflexivity|]. exact Hrest.
  - split; [reflexivity|]. exact Hrest.
Qed.

(** X26.  One iteration of the loop never raises and always adds exactly
    one snapshot per service to the window, in the order of the service
    list, whatever prediction, repair, training or saving do afterwards in
    that iteration, also when one of them raises. *)
Theorem tick_stores_seven_snapshots s :
  exists metrics,
    service <$> metrics = services
    /\ snd (tick s) = Done tt
    /\ metrics_history (agent_now (fst (tick s)))
       = Deque.extend metrics_maxlen (metrics_history (agent_now s)) metrics.
Proof. apply tick_run. Qed.

Lemma ticks_succ (n : nat) s :
  ticks (skp := skp) (S n) s = (tick;; ticks n) s.
Proof. reflexivity. Qed.

Lemma ticks_window_length (n : nat) :
  forall s,
    (length (window_now s) <= metrics_maxlen)%nat ->
    snd (ticks n s) = Done tt
    /\ length (window_now (fst (ticks n s)))
       = Nat.min (length (window_now s) + 7 * n) metrics_maxlen.
Proof.
  induction n as [|n IH]; intros s Hbound.
  - split; [reflexivity|]. cbn. lia.
  - rewrite ticks_succ, io_bind_unfold.
    destruct (tick_run s) as (metrics & Hnames & Hdone & Hwindow).
    destruct (tick s) as [s1 r]. cbn [fst snd] in Hdone, Hwindow. subst r.
    cbv beta iota.
    assert (length (window_now s1)
            = Nat.min (length (window_now s) + 7) metrics_maxlen) as Hlen.
    { rewrite Hwindow, deque_extend_drop by done.
      rewrite length_drop, length_app.
      assert (length metrics = 7%nat) as ->
        by (by rewrite <- (length_fmap service), Hnames).
      lia. }
    destruct (IH s1) as [Hdone' Hlen']; [lia|].
    split; [exact Hdone'|]. rewrite Hlen', Hlen. lia.
Qed.

Lemma multiple_of_seven (k n : nat) :
  Nat.gcd k 7 = 1%nat -> ((7 * n) `mod` k = 0 <-> n `mod` k = 0)%nat.
Proof.
  intros Hgcd. rewrite !Nat.Lcm0.mod_divide. split; intros H.
  - by apply (Nat.gauss k 7 n).
  - by apply Nat.divide_mul_r.
Qed.

(** X27.  Started with an empty window, the loop has min(7n, 10000)
    snapshots in its window after [n] iterations, whatever happened in
    them.  The test for training ([len % 100 == 0]) therefore passes
    exactly at the iterations that are multiples of 100 and at every
    iteration from the 1429th on, when the window stays full; the test for
    saving ([len % 500 == 0]) passes exactly at the multiples of 500 and at
    every iteration from the 1429th on. *)
Theorem training_and_saving_cadence (n : nat) s :
  metrics_history (agent_now s) = [] ->
  let len := length (metrics_history (agent_now (fst (ticks n s)))) in
  len = Nat.min (7 * n) metrics_maxlen
  /\ ((len `mod` 100 =? 0)%nat = true <-> (n `mod` 100 = 0 \/ 1429 <= n)%nat)
  /\ ((len `mod` 500 =? 0)%nat = true <-> (n `mod` 500 = 0 \/ 1429 <= n)%nat).
Proof.
  intros Hempty len.
  assert (len = Nat.min (7 * n) metrics_maxlen) as Hlen.
  { subst len. destruct (ticks_window_length n s) as [_ Hlen].
    - unfold window_now. rewrite Hempty. cbn. lia.
    - unfold window_now in Hlen. rewrite Hlen, Hempty. cbn [length]. lia. }
  split; [exact Hlen|]. clearbody len. subst len.
  rewrite !Nat.eqb_eq. unfold metrics_maxlen.
  destruct (Nat.lt_ge_cases n 1429) as [Hsmall|Hfull].
  - replace (Nat.min (7 * n) (Z.to_nat 10000)) with (7 * n)%nat by lia.
    rewrite !multiple_of_seven by reflexivity. split; split; intros; [auto | lia | auto | lia].
  - replace (Nat.min (7 * n) (Z.to_nat 10000)) with (Z.to_nat 10000) by lia.
    split; split; intros; try (right; lia); reflexivity.
Qed.

End LoopProperties.


Lemma predict_failures_needs_models_witness :
  let metrics := [sample_metric "redis" 0 "unhealthy"] in
  let unfitted : agent (sample_sklearn false true true) string :=
    exec train_models (published_agent false true true) in
  @predict_failures (sample_sklearn true true true)
    (sample_predict true true true [(1 # 4)%Q; (3 # 4)%Q] 1) string
    (scripted_outside [] [] []) metrics (start_runtime fresh_agent)
  = (start_runtime fresh_agent, Done [])
  /\ @predict_failures (sample_sklearn true true true)
       (sample_predict true true true [(1 # 4)%Q; (3 # 4)%Q] 1) string
       (scripted_outside [] [] []) metrics
       (start_runtime (set_scaler None (published_agent true true true)))
     = (start_runtime (set_scaler None (published_agent true true true)), Done [])
  /\ @predict_failures (sample_sklearn false true true)
       (sample_predict false true true [(1 # 4)%Q; (3 # 4)%Q] 1) string
       (scripted_outside [] [] []) metrics (start_runtime unfitted)
     = (start_runtime unfitted, Done []).
Proof.
  intros metrics unfitted. split; [|split].
  - destruct (@predict_failures_needs_models (sample_sklearn true true true)
                (sample_predict true true true [(1 # 4)%Q; (3 # 4)%Q] 1) string
                (scripted_outside [] [] []) metrics (start_runtime fresh_agent))
      as (Hnone & _ & _).
    apply Hnone. reflexivity.
  - destruct (@predict_failures_needs_models (sample_sklearn true true true)
                (sample_predict true true true [(1 # 4)%Q; (3 # 4)%Q] 1) string
                (scripted_outside [] [] []) metrics
                (start_runtime (set_scaler None (published_agent true true true))))
      as (_ & Hscaler & _).
    apply (Hscaler (Some ([], []))); reflexivity.
  - destruct (@predict_failures_needs_models (sample_sklearn false true true)
                (sample_predict false true true [(1 # 4)%Q; (3 # 4)%Q] 1) string
                (scripted_outside [] [] []) metrics (start_runtime unfitted))
      as (_ & _ & Hunfitted).
    apply (Hunfitted (Some ([], [])) None); reflexivity.
Defined.

Lemma detect_anomalies_selects_witness :
  let metrics := [sample_metric "redis" 0 "healthy"; sample_metric "grafana" 0 "down"] in
  snd (@detect_anomalies (sample_sklearn true true true)
         (sample_predict true true true [] (-1)) string metrics
         (start_runtime (published_agent true true true)))
  = Done metrics
  /\ @detect_anomalies (sample_sklearn true true true)
       (sample_predict true true true [] (-1)) string metrics
       (start_runtime fresh_agent)
     = (start_runtime fresh_agent, Done [])
  /\ @detect_anomalies (sample_sklearn true true true)
       (sample_predict true true true [] (-1)) string metrics
       (start_runtime (set_scaler None (published_agent true true true)))
     = (start_runtime (set_scaler None (published_agent true true true)), Done []).
Proof.
  intros metrics.
  destruct (@detect_anomalies_selects (sample_sklearn true true true)
              (sample_predict true true true [] (-1)) string metrics
              (start_runtime (published_agent true true true)))
    as (_ & Hsub & _).
  destruct (@detect_anomalies_selects (sample_sklearn true true true)
              (sample_predict true true true [] (-1)) string metrics
              (start_runtime fresh_agent)) as (_ & _ & Hnone & _).
  destruct (@detect_anomalies_selects (sample_sklearn true true true)
              (sample_predict true true true [] (-1)) string metrics
              (start_runtime (set_scaler None (published_agent true true true))))
    as (_ & _ & _ & Hscaler).
  split; [|split].
  - pose proof (Hsub _ eq_refl) as Hselected.
    apply sublist_length in Hselected as Hlen. reflexivity.
  - apply Hnone. reflexivity.
  - apply (Hscaler (Some [])); reflexivity.
Defined.


Lemma training_and_saving_cadence_witness :
  let after_100 :=
    fst (@ticks (sample_sklearn true true true)
           (sample_predict true true true [(1 # 4)%Q; (3 # 4)%Q] 1) string
           (scripted_outside [] [] []) 100 (start_runtime fresh_agent)) in
  length (metrics_history (agent_now after_100)) = 700%nat.
Proof.
  intros after_100.
  destruct (@training_and_saving_cadence (sample_sklearn true true true)
              (sample_predict true true true [(1 # 4)%Q; (3 # 4)%Q] 1) string
              (scripted_outside [] [] []) 100 (start_runtime fresh_agent) eq_refl)
    as (Hlen & _ & _).
  subst after_100. rewrite Hlen. unfold metrics_maxlen. lia.
Defined.

(** ** Labels on the windows the loop builds *)

Lemma services_NoDup : NoDup services.
Proof. by apply (bool_decide_unpack _). Qed.

Lemma lookup_repeated_services (n p : nat) (name : string) :
  concat (replicate n services) !! p = Some name ->
  services !! (p `mod` 7)%nat = Some name.
Proof.
  revert p. induction n as [|n IH]; intros p; [done|].
  cbn [replicate concat].
  destruct (Nat.lt_ge_cases p 7) as [Hp|Hp].
  - rewrite lookup_app_l by (cbn; lia). by rewrite Nat.mod_small.
  - rewrite lookup_app_r by (cbn; lia). cbn [length services].
    intros Hrest. apply IH in Hrest.
    replace (p `mod` 7)%nat with ((p - 7) `mod` 7)%nat; [done|].
    replace p with (p - 7 + 1 * 7)%nat at 2 by lia.
    by rewrite Nat.Div0.mod_add.
Qed.

Lemma periodic_services_spread (n k : nat) (stored : list ServiceMetrics) :
  service <$> stored = concat (replicate n services) ->
  forall (i j : nat) (m m' : ServiceMetrics),
    (i < j <= i + 5)%nat ->
    drop k stored !! i = Some m -> drop k stored !! j = Some m' ->
    service m' <> service m.
Proof.
  intros Hnames i j m m' Hij Hm Hm' Hsame.
  rewrite lookup_drop in Hm, Hm'.
  assert (services !! ((k + i) `mod` 7)%nat = Some (service m)) as Hi.
  { apply (lookup_repeated_services n). rewrite <- Hnames.
    by rewrite list_lookup_fmap, Hm. }
  assert (services !! ((k + j) `mod` 7)%nat = Some (service m')) as Hj.
  { apply (lookup_repeated_services n). rewrite <- Hnames.
    by rewrite list_lookup_fmap, Hm'. }
  rewrite Hsame in Hj.
  pose proof (NoDup_lookup _ _ _ _ services_NoDup Hi Hj) as Heq.
  pose proof (Nat.div_mod_eq (k + i) 7). pose proof (Nat.div_mod_eq (k + j) 7).
  lia.
Qed.

Section LoopLabels.
Context {sk : Sklearn} {skp : SklearnPredict sk} {Failure : Type} {out : Outside}.
Implicit Types s : runtime sk Failure.

Lemma ticks_window_content (n : nat) :
  forall s,
    exists stored,
      service <$> stored = concat (replicate n services)
      /\ window_now (fst (ticks (skp := skp) n s))
         = Deque.extend metrics_maxlen (window_now s) stored.
Proof.
  induction n as [|n IH]; intros s.
  - by exists [].
  - rewrite ticks_succ, io_bind_unfold.
    destruct (tick_run (skp := skp) s) as (metrics & Hnames & Hdone & Hwindow).
    destruct (tick s) as [s1 r]. cbn [fst snd] in Hdone, Hwindow. subst r.
    cbv beta iota.
    destruct (IH s1) as (stored & Hstored & Hrest).
    exists (metrics ++ stored). split.
    + rewrite fmap_app, Hnames, Hstored. reflexivity.
    + rewrite Hrest, Hwindow. apply deque_extend_app.
Qed.

(** X28.  Every window the loop builds from an empty start has all its
    training labels equal to 0: seven services report per iteration in a
    fixed order, so the five entries after a snapshot never hold a snapshot
    of the same service, and neither an unhealthy status nor a restart is
    ever seen by the label.  The classifier is only ever fitted on one
    class. *)
Theorem loop_windows_have_zero_labels (n : nat) s :
  metrics_history (agent_now s) = [] ->
  let window := metrics_history (agent_now (fst (ticks (skp := skp) n s))) in
  training_y window = replicate (length window - 10) 0%Z.
Proof.
  intros Hempty window.
  destruct (ticks_window_content n s) as (stored & Hnames & Hwindow).
  unfold window_now in Hwindow. rewrite Hempty in Hwindow.
  rewrite deque_extend_drop in Hwindow by (cbn; lia). cbn [app] in Hwindow.
  subst window. rewrite Hwindow.
  apply labels_zero_of_spread.
  apply (periodic_services_spread n _ stored Hnames).
Qed.

End LoopLabels.

Lemma loop_windows_have_zero_labels_witness :
  let window :=
    metrics_history
      (agent_now
         (fst (@ticks (sample_sklearn true true true)
                 (sample_predict true true true [(1 # 4)%Q; (3 # 4)%Q] 1) string
                 (scripted_outside [] [] []) 2 (start_runtime fresh_agent)))) in
  training_y window = replicate (length window - 10) 0%Z.
Proof.
  intros window.
  apply (@loop_windows_have_zero_labels (sample_sklearn true true true)
           (sample_predict true true true [(1 # 4)%Q; (3 # 4)%Q] 1) string
           (scripted_outside [] [] []) 2 (start_runtime fresh_agent)).
  reflexivity.
Defined.
